(** * Expense tracker: a shallow embedding of [expense_tracker.py]

    The development follows the Python source function by function.

    - Python [str] values are Rocq [string]s; a character stands for its code
      point, so the model covers every text whose code points are below 256.
    - Python [float] values are IEEE binary64 numbers ([PrimFloat.float]).
    - [float(text)] is the interpreter's parser; the operations take it as a
      section variable [float_of_str] ([None] stands for [ValueError]).
    - [datetime.strptime(text, '%Y-%m-%d')] is modelled after CPython's
      [_strptime] module: the format is compiled to a regular expression,
      matched with ordered alternatives, and the date is then range checked.
    - The tracker object, the data file and the console are one explicit
      state, threaded through a small state monad. *)

From Stdlib Require Import ZArith Floats Ascii String Lia.
From stdpp Require Import base option list strings gmap sorting.

Local Open Scope Z_scope.

(** ** Python strings *)

Module PyStr.

(** The code point of a character. *)
Definition code (c : ascii) : nat := nat_of_ascii c.
Global Arguments code : simpl never.

Definition between (lo hi : nat) (c : ascii) : bool :=
  (lo <=? code c)%nat && (code c <=? hi)%nat.

(** [str.isspace] on code points below 256. *)
Definition isspace (c : ascii) : bool :=
  between 9 13 c || between 28 32 c || between 133 133 c || between 160 160 c.

(** [\d] of the [re] module on code points below 256. *)
Definition isdigit (c : ascii) : bool := between 48 57 c.

Fixpoint lstrip (s : string) : string :=
  match s with
  | EmptyString => EmptyString
  | String c s' => if isspace c then lstrip s' else s
  end.

Fixpoint rstrip (s : string) : string :=
  match s with
  | EmptyString => EmptyString
  | String c s' =>
      match rstrip s' with
      | EmptyString => if isspace c then EmptyString else String c EmptyString
      | r => String c r
      end
  end.

(** [s.strip()] *)
Definition strip (s : string) : string := rstrip (lstrip s).

(** Truth value of a string: only the empty string is false. *)
Definition truthy (s : string) : bool :=
  match s with EmptyString => false | String _ _ => true end.

(** [a or b] on strings. *)
Definition or_else (a b : string) : string := if truthy a then a else b.

(** [str.lower] on code points below 256: A-Z and the Latin-1 capitals. *)
Definition lower_char (c : ascii) : ascii :=
  if between 65 90 c || between 192 214 c || between 216 222 c
  then ascii_of_nat (code c + 32) else c.

Fixpoint lower (s : string) : string :=
  match s with
  | EmptyString => EmptyString
  | String c s' => String (lower_char c) (lower s')
  end.

(** [s[:n]] *)
Fixpoint slice_to (n : nat) (s : string) : string :=
  match n, s with
  | S n', String c s' => String c (slice_to n' s')
  | _, _ => EmptyString
  end.

(** [int(s)] on a run of decimal digits, read left to right. *)
Fixpoint digits_value (acc : Z) (s : string) : Z :=
  match s with
  | EmptyString => acc
  | String c s' => digits_value (10 * acc + (Z.of_nat (code c) - 48)) s'
  end.

(** [int(s)] as [_strptime] uses it on a captured group: surrounding blanks
    are ignored, the rest is a run of digits. *)
Definition int (s : string) : Z := digits_value 0 (strip s).

End PyStr.

(** ** Regular expressions without repetition, matched as [re.match] does *)

Module Re.
Import PyStr.

Inductive regex : Type :=
| Chr (c : ascii)
| Range (lo hi : ascii)
| Digit
| Seq (r1 r2 : regex)
| Alt (r1 r2 : regex)
| Group (name : string) (r : regex).

Definition groups : Type := list (string * string).

(** The matched text between two positions of the subject. *)
Definition consumed (s rest : string) : string :=
  slice_to (String.length s - String.length rest) s.
Global Arguments consumed : simpl never.

(** Backtracking matcher: [k] is the rest of the pattern.  An alternative
    is tried only when everything after the previous one failed.  The
    characters of these patterns have no case, so that matching without
    regard to case, as [_strptime] asks for, makes no difference. *)
Fixpoint rmatch {R : Type} (r : regex) (s : string) (g : groups)
    (k : string → groups → option R) : option R :=
  match r with
  | Chr c =>
      match s with
      | String c' s' => if (code c' =? code c)%nat then k s' g else None
      | EmptyString => None
      end
  | Range lo hi =>
      match s with
      | String c' s' => if between (code lo) (code hi) c' then k s' g else None
      | EmptyString => None
      end
  | Digit =>
      match s with
      | String c' s' => if isdigit c' then k s' g else None
      | EmptyString => None
      end
  | Seq r1 r2 => rmatch r1 s g (λ s' g', rmatch r2 s' g' k)
  | Alt r1 r2 =>
      match rmatch r1 s g k with
      | Some x => Some x
      | None => rmatch r2 s g k
      end
  | Group name r =>
      rmatch r s g (λ s' g', k s' ((name, consumed s s') :: g'))
  end.

(** [pattern.match(s)]: the first match anchored at the start, as the text
    left after it and the groups. *)
Definition re_match (r : regex) (s : string) : option (string * groups) :=
  rmatch r s [] (λ rest g, Some (rest, g)).

Fixpoint group (name : string) (g : groups) : string :=
  match g with
  | [] => EmptyString
  | (n, v) :: g' => if String.eqb n name then v else group name g'
  end.

End Re.

(** ** [datetime.strptime(text, '%Y-%m-%d')] *)

Module Strptime.
Import PyStr Re.

(** [r|r1|...|rn], tried from left to right. *)
Definition alt (r : regex) (rs : list regex) : regex := foldl Alt r rs.

(** The directive table of [_strptime.TimeRE]. *)
(** [%Y]: [(?P<Y>\d\d\d\d)] *)
Definition re_Y : regex := Group "Y" (Seq Digit (Seq Digit (Seq Digit Digit))).
(** [%m]: [(?P<m>1[0-2]|0[1-9]|[1-9])] *)
Definition re_m : regex :=
  Group "m" (alt (Seq (Chr "1") (Range "0" "2"))
                 [Seq (Chr "0") (Range "1" "9");
                  Range "1" "9"]).
(** [%d]: [(?P<d>3[0-1]|[1-2]\d|0[1-9]|[1-9]| [1-9])] *)
Definition re_d : regex :=
  Group "d" (alt (Seq (Chr "3") (Range "0" "1"))
                 [Seq (Range "1" "2") Digit;
                  Seq (Chr "0") (Range "1" "9");
                  Range "1" "9";
                  Seq (Chr " ") (Range "1" "9")]).

(** The pattern compiled from ['%Y-%m-%d']. *)
Definition format_regex : regex :=
  Seq re_Y (Seq (Chr "-") (Seq re_m (Seq (Chr "-") re_d))).

(** [datetime._is_leap] *)
Definition is_leap (year : Z) : bool :=
  (year mod 4 =? 0) && (negb (year mod 100 =? 0) || (year mod 400 =? 0)).

(** [datetime._days_in_month], with the table [_DAYS_IN_MONTH]. *)
Definition days_in_month (year month : Z) : Z :=
  if (month =? 2) && is_leap year then 29
  else nth (Z.to_nat month) [-1; 31; 28; 31; 30; 31; 30; 31; 31; 30; 31; 30; 31] (-1).

(** [datetime._check_date_fields]: [MINYEAR = 1], [MAXYEAR = 9999]. *)
Definition check_date_fields (year month day : Z) : bool :=
  (1 <=? year) && (year <=? 9999) && (1 <=? month) && (month <=? 12)
  && (1 <=? day) && (day <=? days_in_month year month).

(** The groups of the match, when the pattern matches the whole text:
    [None] is the [ValueError] of a mismatch or of unconverted data. *)
Definition match_format (data_string : string) : option (string * string * string) :=
  match re_match format_regex data_string with
  | None => None
  | Some (rest, found) =>
      if truthy rest then None
      else Some (group "Y" found, group "m" found, group "d" found)
  end.

(** [strptime]: the year, month and day, or [None] for [ValueError]. *)
Definition strptime (data_string : string) : option (Z * Z * Z) :=
  match match_format data_string with
  | None => None
  | Some (Y, m, d) =>
      let year := int Y in
      let month := int m in
      let day := int d in
      if check_date_fields year month day then Some (year, month, day) else None
  end.

End Strptime.

Example strptime_padded : Strptime.strptime "2024-02-29" = Some (2024, 2, 29).
Proof. reflexivity. Qed.
Example strptime_unpadded : Strptime.strptime "2024-1-5" = Some (2024, 1, 5).
Proof. reflexivity. Qed.
Example strptime_blank_day : Strptime.strptime "2024-01- 5" = Some (2024, 1, 5).
Proof. reflexivity. Qed.
Example strptime_feb30 : Strptime.strptime "2024-02-30" = None.
Proof. reflexivity. Qed.
Example strptime_month13 : Strptime.strptime "2023-13-01" = None.
Proof. reflexivity. Qed.
Example strptime_day32 : Strptime.strptime "2023-12-32" = None.
Proof. reflexivity. Qed.
Example strptime_year0 : Strptime.strptime "0000-01-01" = None.
Proof. reflexivity. Qed.
Example strptime_text : Strptime.strptime "not-a-date" = None.
Proof. reflexivity. Qed.
Example strptime_trailing : Strptime.strptime "2024-01-05 " = None.
Proof. reflexivity. Qed.
Example strip_example : PyStr.strip "  a b  " = "a b".
Proof. reflexivity. Qed.
Example lower_example : PyStr.lower "Food" = "food".
Proof. reflexivity. Qed.

(** ** What a date text is, stated without the matcher *)

Module DateText.
Import PyStr Strptime.

Fixpoint all_digits (s : string) : bool :=
  match s with
  | EmptyString => true
  | String c s' => isdigit c && all_digits s'
  end.

(** The number a run of digits denotes. *)
Definition number (s : string) : Z := digits_value 0 s.

(** A field of [lo] to [hi] decimal digits denoting [v]. *)
Definition digit_field (lo hi : nat) (s : string) (v : Z) : Prop :=
  all_digits s = true ∧ (lo ≤ String.length s ≤ hi)%nat ∧ v = number s.

(** The month and day fields: two digits when [padded], else one or two;
    an unpadded day may also be a blank followed by one digit. *)
Definition month_text (padded : bool) (M : string) (m : Z) : Prop :=
  digit_field (if padded then 2 else 1) 2 M m.

Definition day_text (padded : bool) (D : string) (d : Z) : Prop :=
  digit_field (if padded then 2 else 1) 2 D d
  ∨ (padded = false ∧
     ∃ c, D = String " " (String c EmptyString) ∧ isdigit c = true
          ∧ d = Z.of_nat (code c) - 48).

(** [s] reads year-month-day with a four digit year. *)
Definition date_text (padded : bool) (s : string) (y m d : Z) : Prop :=
  ∃ Y M D : string,
    s = Y +:+ "-" +:+ M +:+ "-" +:+ D
    ∧ digit_field 4 4 Y y ∧ month_text padded M m ∧ day_text padded D d.

(** A day that exists in the proleptic Gregorian calendar from year 1. *)
Definition valid_gregorian (y m d : Z) : Prop :=
  1 ≤ y ∧ 1 ≤ m ≤ 12 ∧ 1 ≤ d ≤ days_in_month y m.

(** Strict [YYYY-MM-DD]: every field zero padded to its full width. *)
Definition strict_date (s : string) : Prop :=
  ∃ y m d, date_text true s y m d ∧ valid_gregorian y m d.

(** The same with the padding of month and day optional. *)
Definition lenient_date (s : string) : Prop :=
  ∃ y m d, date_text false s y m d ∧ valid_gregorian y m d.

End DateText.

(** ** Facts about characters and strings *)

Section char_facts.
Import PyStr Re.

Lemma between_true lo hi c : between lo hi c = true ↔ (lo ≤ code c ≤ hi)%nat.
Proof.
  unfold between. rewrite andb_true_iff, !Nat.leb_le. tauto.
Qed.

Lemma between_false lo hi c :
  between lo hi c = false ↔ ¬ (lo ≤ code c ≤ hi)%nat.
Proof.
  rewrite <- between_true. destruct (between lo hi c); split; congruence.
Qed.

Lemma isdigit_true c : isdigit c = true ↔ (48 ≤ code c ≤ 57)%nat.
Proof. apply between_true. Qed.

Lemma isdigit_false c : isdigit c = false ↔ ¬ (48 ≤ code c ≤ 57)%nat.
Proof. apply between_false. Qed.

Lemma isspace_false c :
  isspace c = false ↔
  ¬ ((9 ≤ code c ≤ 13) ∨ (28 ≤ code c ≤ 32) ∨ code c = 133 ∨ code c = 160)%nat.
Proof.
  unfold isspace. rewrite !orb_false_iff, !between_false. lia.
Qed.

Lemma code_inj c1 c2 : code c1 = code c2 → c1 = c2.
Proof.
  unfold code. intros H.
  rewrite <- (ascii_nat_embedding c1), <- (ascii_nat_embedding c2). by rewrite H.
Qed.

Lemma string_app_cons c (w s : string) : String c w +:+ s = String c (w +:+ s).
Proof. reflexivity. Qed.

Lemma string_length_app (w s : string) :
  String.length (w +:+ s) = (String.length w + String.length s)%nat.
Proof.
  induction w as [|c w IH]; [reflexivity|].
  rewrite string_app_cons. simpl. by rewrite IH.
Qed.

Lemma consumed_app w s : consumed (w +:+ s) s = w.
Proof.
  unfold consumed. rewrite string_length_app.
  replace (String.length w + String.length s - String.length s)%nat
    with (String.length w) by lia.
  induction w as [|c w IH].
  - by destruct s.
  - rewrite string_app_cons. simpl. by rewrite IH.
Qed.

Lemma consumed_1 c s : consumed (String c s) s = String c EmptyString.
Proof. apply (consumed_app (String c EmptyString)). Qed.

Lemma consumed_2 c1 c2 s :
  consumed (String c1 (String c2 s)) s = String c1 (String c2 EmptyString).
Proof. apply (consumed_app (String c1 (String c2 EmptyString))). Qed.

Lemma consumed_4 c1 c2 c3 c4 s :
  consumed (String c1 (String c2 (String c3 (String c4 s)))) s
  = String c1 (String c2 (String c3 (String c4 EmptyString))).
Proof.
  apply (consumed_app (String c1 (String c2 (String c3 (String c4 EmptyString))))).
Qed.

End char_facts.

(** Literal code points are evaluated; tests on characters become
    arithmetic on code points. *)
Ltac eval_codes :=
  repeat match goal with
    | |- context [PyStr.code (Ascii ?a ?b ?c ?d ?e ?f ?g ?h)] =>
        let v := eval vm_compute in (PyStr.code (Ascii a b c d e f g h)) in
        change (PyStr.code (Ascii a b c d e f g h)) with v
    | H : context [PyStr.code (Ascii ?a ?b ?c ?d ?e ?f ?g ?h)] |- _ =>
        let v := eval vm_compute in (PyStr.code (Ascii a b c d e f g h)) in
        change (PyStr.code (Ascii a b c d e f g h)) with v in H
    end.

Ltac tests_to_arith :=
  repeat match goal with
    | H : PyStr.between _ _ _ = true |- _ => apply between_true in H
    | H : PyStr.between _ _ _ = false |- _ => apply between_false in H
    | H : PyStr.isdigit _ = true |- _ => apply isdigit_true in H
    | H : PyStr.isdigit _ = false |- _ => apply isdigit_false in H
    | H : PyStr.isspace _ = false |- _ => apply isspace_false in H
    | H : (_ =? _)%nat = true |- _ => apply Nat.eqb_eq in H
    | H : (_ =? _)%nat = false |- _ => apply Nat.eqb_neq in H
    | H : _ && _ = true |- _ => apply andb_true_iff in H; destruct H
    end;
  eval_codes.

Ltac case_test :=
  match goal with
  | |- context [if ?b then _ else _] => destruct b eqn:?
  | H : context [if ?b then _ else _] |- _ => destruct b eqn:?
  end.

(** ** The matcher on the pattern of ['%Y-%m-%d'] *)

Section matcher_facts.
Import PyStr Re Strptime DateText.
Context {R : Type}.
Implicit Types (s : string) (g : groups) (k : string → groups → option R).

Lemma rmatch_Chr c s g k :
  rmatch (Chr c) s g k =
  match s with
  | String c' s' => if (code c' =? code c)%nat then k s' g else None
  | EmptyString => None
  end.
Proof. reflexivity. Qed.

Lemma rmatch_Seq r1 r2 s g k :
  rmatch (Seq r1 r2) s g k = rmatch r1 s g (λ s' g', rmatch r2 s' g' k).
Proof. reflexivity. Qed.

(** The year group takes exactly four digits. *)
Lemma rmatch_Y s g k :
  rmatch re_Y s g k =
  match s with
  | String c1 (String c2 (String c3 (String c4 s'))) =>
      if isdigit c1 && isdigit c2 && isdigit c3 && isdigit c4
      then k s' (("Y", String c1 (String c2 (String c3 (String c4 EmptyString)))) :: g)
      else None
  | _ => None
  end.
Proof.
  destruct s as [|c1 [|c2 [|c3 [|c4 s']]]]; cbn; rewrite ?consumed_4;
    repeat match goal with
      | |- context [isdigit ?c] => destruct (isdigit c)
      end; reflexivity.
Qed.

(** Whatever alternative of the month group succeeds, it took one or two
    digits. *)
Lemma rmatch_m_sound s g k x :
  rmatch re_m s g k = Some x →
  ∃ M s' m, s = M +:+ s' ∧ month_text false M m ∧ 1 ≤ m ≤ 12
            ∧ k s' (("m", M) :: g) = Some x.
Proof.
  unfold month_text, digit_field.
  destruct s as [|c1 s1]; cbn; [discriminate|].
  intros H.
  repeat first
    [ discriminate
    | case_test
    | match goal with
      | H : context [match ?s with EmptyString => _ | String _ _ => _ end] |- _ =>
          destruct s
      | H : match ?o with Some _ => _ | None => _ end = Some _ |- _ =>
          destruct o eqn:?
      end ];
    simplify_eq; rewrite ?consumed_1, ?consumed_2 in *;
    eval_codes; tests_to_arith.
  all: try (eexists (String _ (String _ EmptyString)), _, _;
            split; [reflexivity|]; cbn; unfold isdigit;
            rewrite ?andb_true_iff, ?between_true;
            split_and!; try reflexivity; try eassumption; lia).
  all: try (eexists (String _ EmptyString), _, _;
            split; [reflexivity|]; cbn; unfold isdigit;
            rewrite ?andb_true_iff, ?between_true;
            split_and!; try reflexivity; try eassumption; lia).
Qed.

(** The same for the day group, which also admits a blank and a digit. *)
Lemma rmatch_d_sound s g k x :
  rmatch re_d s g k = Some x →
  ∃ D s' d, s = D +:+ s' ∧ day_text false D d ∧ 1 ≤ d ≤ 31
            ∧ k s' (("d", D) :: g) = Some x.
Proof.
  unfold day_text, digit_field.
  destruct s as [|c1 s1]; cbn; [discriminate|].
  intros H.
  repeat first
    [ discriminate
    | case_test
    | match goal with
      | H : context [match ?s with EmptyString => _ | String _ _ => _ end] |- _ =>
          destruct s
      | H : match ?o with Some _ => _ | None => _ end = Some _ |- _ =>
          destruct o eqn:?
      end ];
    simplify_eq; rewrite ?consumed_1, ?consumed_2 in *;
    eval_codes; tests_to_arith.
  all: try (eexists (String _ (String _ EmptyString)), _, _;
            split; [reflexivity|]; split; [left|]; cbn; unfold isdigit;
            rewrite ?andb_true_iff, ?between_true;
            split_and!; try reflexivity; try eassumption; lia).
  all: try (eexists (String _ EmptyString), _, _;
            split; [reflexivity|]; split; [left|]; cbn; unfold isdigit;
            rewrite ?andb_true_iff, ?between_true;
            split_and!; try reflexivity; try eassumption; lia).
  all: match goal with
       | H : code ?c = 32%nat |- _ =>
           apply (code_inj c " "%char) in H; subst c
       end.
  all: eexists (String " " (String _ EmptyString)), _, _;
         split; [reflexivity|]; split; [right|];
         [ split; [reflexivity|]; eexists; split; [reflexivity|];
           split; [apply isdigit_true; lia | reflexivity]
         | split; [lia | eassumption] ].
Qed.

(** Before a dash, the month group takes exactly the month field: an
    alternative that stops after one digit of a two digit month finds no
    dash and fails. *)
Lemma rmatch_m_complete M m rest g k :
  month_text false M m → 1 ≤ m ≤ 12 →
  rmatch re_m (M +:+ String "-" rest) g (λ s' g', rmatch (Chr "-") s' g' k)
  = k rest (("m", M) :: g).
Proof.
  unfold month_text, digit_field, number. intros (Hd & Hlen & ->) Hm.
  destruct M as [|c1 [|c2 [|c3 M']]]; simpl in Hlen; try lia;
    cbn in Hd, Hm; rewrite ?string_app_cons; change (EmptyString +:+ ?s) with s;
    cbn; rewrite ?consumed_1, ?consumed_2;
    repeat case_test; eval_codes; tests_to_arith; try (exfalso; lia);
    try reflexivity; by destruct (k rest _).
Qed.

(** At the end of the pattern the first alternative that matches decides;
    on a day field it is the one that takes the whole field. *)
Lemma rmatch_d_complete D d g :
  day_text false D d → 1 ≤ d ≤ 31 →
  rmatch re_d D g (λ rest g', Some (rest, g')) = Some (EmptyString, ("d", D) :: g).
Proof.
  unfold day_text, digit_field, number.
  intros [(Hd & Hlen & ->)|(_ & c & -> & Hc & ->)] Hday.
  - destruct D as [|c1 [|c2 [|c3 D']]]; simpl in Hlen; try lia;
      cbn in Hd, Hday; cbn; rewrite ?consumed_1, ?consumed_2;
      change (consumed ?s EmptyString) with (consumed (s +:+ EmptyString) EmptyString);
      rewrite ?consumed_app;
      repeat case_test; eval_codes; tests_to_arith; try (exfalso; lia);
      reflexivity.
  - cbn; change (consumed ?s EmptyString) with (consumed (s +:+ EmptyString) EmptyString);
      rewrite ?consumed_app;
      repeat case_test; eval_codes; tests_to_arith; try (exfalso; lia);
      reflexivity.
Qed.

End matcher_facts.

(** ** [strptime] accepts exactly the lenient date texts *)

Section strptime_facts.
Import PyStr Re Strptime DateText.

Lemma string_app_nil_r (s : string) : s +:+ EmptyString = s.
Proof. induction s as [|c s IH]; [done|]. by rewrite string_app_cons, IH. Qed.

Lemma lstrip_digits s : all_digits s = true → lstrip s = s.
Proof.
  destruct s as [|c s]; [done|]. simpl. intros [Hc _]%andb_true_iff.
  assert (isspace c = false) as ->; [|done].
  apply isspace_false. apply isdigit_true in Hc. lia.
Qed.

Lemma rstrip_digits s : all_digits s = true → rstrip s = s.
Proof.
  induction s as [|c s IH]; [done|]. simpl. intros [Hc Hs]%andb_true_iff.
  rewrite (IH Hs).
  assert (isspace c = false) as ->; [|by destruct s].
  apply isspace_false. apply isdigit_true in Hc. lia.
Qed.

Lemma int_digits s : all_digits s = true → int s = number s.
Proof.
  intros H. unfold int, strip, number. by rewrite lstrip_digits, rstrip_digits.
Qed.

Lemma int_blank_digit c :
  isdigit c = true → int (String " " (String c EmptyString)) = Z.of_nat (code c) - 48.
Proof.
  intros Hc.
  assert (isspace c = false) as Hsp.
  { apply isspace_false. apply isdigit_true in Hc. lia. }
  unfold int, strip. simpl lstrip.
  change (isspace " ") with true. cbv iota.
  rewrite Hsp. simpl rstrip. rewrite Hsp. simpl. lia.
Qed.

Lemma int_day D d : day_text false D d → int D = d.
Proof.
  intros [(Hd & _ & ->)|(_ & c & -> & Hc & ->)].
  - by apply int_digits.
  - by apply int_blank_digit.
Qed.

Lemma year_range Y y : digit_field 4 4 Y y → 0 ≤ y ≤ 9999.
Proof.
  unfold digit_field, number. intros (Hd & Hlen & ->).
  destruct Y as [|c1 [|c2 [|c3 [|c4 [|c5 Y]]]]]; simpl in Hlen; try lia.
  cbn in *. tests_to_arith. unfold isdigit in *. tests_to_arith. lia.
Qed.

Lemma days_in_month_le y m : 1 ≤ m ≤ 12 → 28 ≤ days_in_month y m ≤ 31.
Proof.
  intros Hm. unfold days_in_month.
  destruct ((m =? 2) && is_leap y); [lia|].
  assert (m = 1 ∨ m = 2 ∨ m = 3 ∨ m = 4 ∨ m = 5 ∨ m = 6 ∨ m = 7 ∨ m = 8
          ∨ m = 9 ∨ m = 10 ∨ m = 11 ∨ m = 12) as Hcases by lia.
  destruct_or!; subst m; simpl; lia.
Qed.

Lemma check_date_fields_true y m d :
  check_date_fields y m d = true ↔ valid_gregorian y m d ∧ y ≤ 9999.
Proof.
  unfold check_date_fields, valid_gregorian.
  rewrite !andb_true_iff, !Z.leb_le. tauto.
Qed.

(** A successful match splits the text into its three fields. *)
Lemma match_format_sound s Y M D :
  match_format s = Some (Y, M, D) →
  ∃ y m d, s = Y +:+ "-" +:+ M +:+ "-" +:+ D
    ∧ digit_field 4 4 Y y ∧ month_text false M m ∧ day_text false D d
    ∧ 1 ≤ m ≤ 12 ∧ 1 ≤ d ≤ 31.
Proof.
  unfold match_format, re_match, format_regex.
  rewrite rmatch_Seq, rmatch_Y.
  destruct s as [|c1 [|c2 [|c3 [|c4 s]]]]; try discriminate.
  destruct (isdigit c1 && isdigit c2 && isdigit c3 && isdigit c4) eqn:Hy;
    [|discriminate].
  rewrite rmatch_Seq, rmatch_Chr. destruct s as [|c5 s]; [discriminate|].
  destruct (code c5 =? code "-")%nat eqn:Hc5; [|discriminate].
  apply Nat.eqb_eq, code_inj in Hc5 as ->.
  rewrite rmatch_Seq.
  destruct (rmatch re_m _ _ _) as [[rest found]|] eqn:Hm; [|discriminate].
  apply rmatch_m_sound in Hm as (M' & s1 & m & -> & HM & Hm12 & Hk).
  rewrite rmatch_Seq, rmatch_Chr in Hk. destruct s1 as [|c6 s1]; [discriminate|].
  destruct (code c6 =? code "-")%nat eqn:Hc6; [|discriminate].
  apply Nat.eqb_eq, code_inj in Hc6 as ->.
  apply rmatch_d_sound in Hk as (D' & s2 & d & -> & HD & Hd31 & Hk).
  injection Hk as <- <-.
  destruct s2; [|discriminate]. cbn. intros [= <- <- <-].
  exists (number (String c1 (String c2 (String c3 (String c4 EmptyString))))), m, d.
  rewrite string_app_nil_r. split; [reflexivity|].
  split_and!; try done; try lia.
  unfold digit_field. split; [|split; [simpl; lia|done]].
  cbn. rewrite !andb_true_iff in *. tauto.
Qed.

(** Conversely a text made of three such fields is matched whole. *)
Lemma match_format_complete Y M D y m d :
  digit_field 4 4 Y y → month_text false M m → day_text false D d →
  1 ≤ m ≤ 12 → 1 ≤ d ≤ 31 →
  match_format (Y +:+ "-" +:+ M +:+ "-" +:+ D) = Some (Y, M, D).
Proof.
  intros (HY & Hlen & _) HM HD Hm Hd.
  unfold match_format, re_match, format_regex.
  destruct Y as [|c1 [|c2 [|c3 [|c4 [|c5 Y]]]]]; simpl in Hlen; try lia.
  rewrite !string_app_cons. change (EmptyString +:+ ?s) with s.
  rewrite rmatch_Seq, rmatch_Y. cbn in HY. rewrite andb_true_r in HY.
  rewrite !andb_assoc in HY. rewrite HY.
  rewrite rmatch_Seq, rmatch_Chr, Nat.eqb_refl, rmatch_Seq.
  match goal with
  | |- context [rmatch re_m ?s ?g ?k] =>
      assert (rmatch re_m s g k
              = rmatch re_d D (("m", M) :: g) (λ rest g', Some (rest, g'))) as ->
        by exact (rmatch_m_complete M m D g
                    (λ s' g', rmatch re_d s' g' (λ rest g', Some (rest, g'))) HM Hm)
  end.
  rewrite (rmatch_d_complete D d); [|done..].
  reflexivity.
Qed.

Theorem strptime_iff s y m d :
  strptime s = Some (y, m, d) ↔ date_text false s y m d ∧ valid_gregorian y m d.
Proof.
  unfold strptime. split.
  - destruct (match_format s) as [[[Y M] D]|] eqn:Hs; [|discriminate].
    apply match_format_sound in Hs as (y' & m' & d' & -> & HY & HM & HD & _ & _).
    destruct (check_date_fields _ _ _) eqn:Hchk; [|discriminate].
    intros [= <- <- <-].
    apply check_date_fields_true in Hchk as [Hv _].
    assert (int Y = y') as Ey by (destruct HY as (? & _ & ->); by apply int_digits).
    assert (int M = m') as Em by (destruct HM as (? & _ & ->); by apply int_digits).
    assert (int D = d') as Ed by by apply int_day.
    rewrite Ey, Em, Ed in *. split; [|done].
    by exists Y, M, D.
  - intros [(Y & M & D & -> & HY & HM & HD) Hv].
    pose proof Hv as (Hy1 & Hm12 & Hd1 & Hdim).
    pose proof (days_in_month_le y m Hm12).
    rewrite (match_format_complete Y M D y m d); [|done || lia..].
    assert (int Y = y) as -> by (destruct HY as (? & _ & ->); by apply int_digits).
    assert (int M = m) as -> by (destruct HM as (? & _ & ->); by apply int_digits).
    assert (int D = d) as -> by by apply int_day.
    assert (check_date_fields y m d = true) as ->; [|done].
    apply check_date_fields_true. split; [done|].
    by apply (year_range Y).
Qed.

Lemma strptime_lenient s : is_Some (strptime s) ↔ lenient_date s.
Proof.
  unfold lenient_date. split.
  - intros [[[y m] d] H]. exists y, m, d. by apply strptime_iff.
  - intros (y & m & d & H). exists (y, m, d). by apply strptime_iff.
Qed.


End strptime_facts.

(** ** The tracker state *)

(** One entry of [self.expenses]: a dictionary with these four keys. *)
Record expense : Type := Expense {
  amount : float;
  date : string;
  note : string;
  category : string
}.

(** What [expenses.json] holds: nothing, something [json.load] or [open]
    fails on, or an array of records. *)
Inductive file_content : Type :=
| Absent
| Unreadable
| Json (records : list expense).

(** The lines the program prints; a number is kept as the value that the
    line formats with two decimals. *)
Inductive message : Type :=
| Loaded (n : nat)
| LoadError
| Saved (n : nat)
| SaveError
| AmountNotPositive
| AmountNotNumber
| DateFormatError
| ExpenseAdded
| NoExpensesFound
| NoMatch
| ExpensesHeader
| ExpenseLine (i : nat) (e : expense)
| InvalidIndex
| ExpenseUpdated
| Deleted (e : expense)
| NoSummary
| TotalSpent (total : float)
| ByCategoryHeader
| ByMonthHeader
| GroupLine (key : string) (amt : float).

(** The object together with its surroundings: the list it owns, the data
    file, whether the file can be written, and what was printed so far. *)
Record tracker : Type := Tracker {
  expenses : list expense;
  data_file : file_content;
  writable : bool;
  console : list message
}.

(** *** State passing *)

Definition M (A : Type) : Type := tracker → A * tracker.

Definition ret {A : Type} (x : A) : M A := λ t, (x, t).

Definition bind {A B : Type} (m : M A) (f : A → M B) : M B :=
  λ t, let (x, t') := m t in f x t'.

Notation "x <- m ;; k" := (bind m (λ x, k))
  (at level 100, m at next level, k at level 200, right associativity).
Notation "m ;; k" := (bind m (λ _, k))
  (at level 100, k at level 200, right associativity).

Definition get_expenses : M (list expense) := λ t, (expenses t, t).

Definition set_expenses (es : list expense) : M unit :=
  λ t, (tt, {| expenses := es; data_file := data_file t;
               writable := writable t; console := console t |}).

Definition print (m : message) : M unit :=
  λ t, (tt, {| expenses := expenses t; data_file := data_file t;
               writable := writable t; console := console t ++ [m] |}).

Definition print_all (ms : list message) : M unit :=
  λ t, (tt, {| expenses := expenses t; data_file := data_file t;
               writable := writable t; console := console t ++ ms |}).

(** *** Python values *)

(** [sum(xs)]: the items are added from left to right, starting from 0, as
    the language reference has it. *)
Definition py_sum (xs : list float) : float := foldl PrimFloat.add PrimFloat.zero xs.

(** From version 3.12 on CPython keeps, for floats, the rounding errors of
    that fold in a second number and adds it at the end.  Where no addition
    rounds, as in the example of the summary, both give the same total. *)
Definition compensate (st : float * float) (x : float) : float * float :=
  let (f, c) := st in
  let t := PrimFloat.add f x in
  if PrimFloat.leb (PrimFloat.abs x) (PrimFloat.abs f)
  then (t, PrimFloat.add c (PrimFloat.add (PrimFloat.sub f t) x))
  else (t, PrimFloat.add c (PrimFloat.add (PrimFloat.sub x t) f)).

Definition py_sum_compensated (xs : list float) : float :=
  match xs with
  | [] => PrimFloat.zero
  | x :: rest =>
      let (f, c) := foldl compensate (PrimFloat.add PrimFloat.zero x, PrimFloat.zero) rest in
      if negb (PrimFloat.is_zero c) && PrimFloat.is_finite c
      then PrimFloat.add f c else f
  end.

(** [d[key] = d.get(key, 0) + a] *)
Definition accumulate (key : string) (a : float) (d : gmap string float)
    : gmap string float :=
  <[key := PrimFloat.add (default PrimFloat.zero (d !! key)) a]> d.

(** Order of [(key, value)] items: the keys of a dictionary differ, so the
    comparison of two items is decided by their keys. *)
Definition item_le (x y : string * float) : Prop := String.le x.1 y.1.

Global Instance item_le_dec : RelDecision item_le.
Proof. intros x y. unfold item_le. apply _. Defined.

(** [sorted(d.items())] *)
Definition sorted_items (d : gmap string float) : list (string * float) :=
  merge_sort item_le (map_to_list d).

Definition set_amount (v : float) (e : expense) : expense :=
  {| amount := v; date := date e; note := note e; category := category e |}.
Definition set_date (v : string) (e : expense) : expense :=
  {| amount := amount e; date := v; note := note e; category := category e |}.
Definition set_note (v : string) (e : expense) : expense :=
  {| amount := amount e; date := date e; note := v; category := category e |}.
Definition set_category (v : string) (e : expense) : expense :=
  {| amount := amount e; date := date e; note := note e; category := v |}.

(** ** The methods of [ExpenseTracker] *)

Section ExpenseTracker.
Import PyStr.

(** [float(text)]; [None] is [ValueError]. *)
Variable float_of_str : string → option float.

(** [load_data]: the records of the file are taken as they are. *)
Definition load_data : M unit :=
  λ t,
    match data_file t with
    | Json records =>
        (set_expenses records ;; print (Loaded (length records))) t
    | Unreadable => (print LoadError ;; set_expenses []) t
    | Absent => set_expenses [] t
    end.

(** [save_data]: the whole list replaces the content of the file; an
    [IOError] is printed, and the file is then taken to keep its content. *)
Definition save_data : M unit :=
  λ t,
    if writable t
    then print (Saved (length (expenses t)))
           {| expenses := expenses t; data_file := Json (expenses t);
              writable := writable t; console := console t |}
    else print SaveError t.

(** [ExpenseTracker()] in a directory with the given file. *)
Definition init (file : file_content) (can_write : bool) : tracker :=
  snd ((set_expenses [] ;; load_data)
         {| expenses := []; data_file := file; writable := can_write;
            console := [] |}).

(** [validate_amount]: [None] after printing the reason, or the number. *)
Definition validate_amount (amount : string) : M (option float) :=
  match float_of_str amount with
  | Some amt =>
      if PrimFloat.leb amt PrimFloat.zero
      then print AmountNotPositive ;; ret None
      else ret (Some amt)
  | None => print AmountNotNumber ;; ret None
  end.

(** [validate_date]: the text itself when [strptime] parses it. *)
Definition validate_date (date_str : string) : M (option string) :=
  match Strptime.strptime date_str with
  | Some _ => ret (Some date_str)
  | None => print DateFormatError ;; ret None
  end.

(** [add_expense]: both validators run before either result is looked at. *)
Definition add_expense (amount date note category : string) : M bool :=
  validated_amount <- validate_amount amount ;;
  validated_date <- validate_date date ;;
  match validated_amount, validated_date with
  | Some a, Some d =>
      let expense :=
        Expense a d (strip note) (or_else (strip category) "Uncategorized") in
      es <- get_expenses ;;
      set_expenses (es ++ [expense]) ;;
      save_data ;;
      print ExpenseAdded ;;
      ret true
  | _, _ => ret false
  end.

(** [view_expenses]: a filter applies when it is given and not empty. *)
Definition view_expenses (filter_category filter_date : option string) : M unit :=
  es <- get_expenses ;;
  match es with
  | [] => print NoExpensesFound
  | _ =>
      let filtered := es in
      let filtered :=
        match filter_category with
        | Some c =>
            if truthy c
            then filter (λ e, lower (category e) = lower c) filtered
            else filtered
        | None => filtered
        end in
      let filtered :=
        match filter_date with
        | Some d => if truthy d then filter (λ e, date e = d) filtered else filtered
        | None => filtered
        end in
      match filtered with
      | [] => print NoMatch
      | _ =>
          print ExpensesHeader ;;
          print_all (imap (λ i e, ExpenseLine (S i) e) filtered)
      end
  end.

(** [1 <= index <= len(self.expenses)] *)
Definition index_ok (index : Z) (es : list expense) : bool :=
  (1 <=? index) && (index <=? Z.of_nat (length es)).

(** An assignment to a key of [exp = self.expenses[index - 1]]. *)
Definition assign (i : nat) (f : expense → expense) : M unit :=
  es <- get_expenses ;; set_expenses (alter f i es).

(** [update_expense]: amount and date are looked at when given and not
    empty, note and category when given. *)
Definition update_expense (index : Z) (amount date note category : option string)
    : M bool :=
  es <- get_expenses ;;
  if negb (index_ok index es) then print InvalidIndex ;; ret false
  else
    let i := Z.to_nat (index - 1) in
    match amount with
    | Some a =>
        if truthy a
        then validated <- validate_amount a ;;
             match validated with
             | Some v => assign i (set_amount v)
             | None => ret tt
             end
        else ret tt
    | None => ret tt
    end ;;
    match date with
    | Some d =>
        if truthy d
        then validated <- validate_date d ;;
             match validated with
             | Some v => assign i (set_date v)
             | None => ret tt
             end
        else ret tt
    | None => ret tt
    end ;;
    match note with
    | Some n => assign i (set_note (strip n))
    | None => ret tt
    end ;;
    match category with
    | Some c => assign i (set_category (or_else (strip c) "Uncategorized"))
    | None => ret tt
    end ;;
    save_data ;;
    print ExpenseUpdated ;;
    ret true.

(** [delete_expense] *)
Definition delete_expense (index : Z) : M bool :=
  es <- get_expenses ;;
  if negb (index_ok index es) then print InvalidIndex ;; ret false
  else
    let i := Z.to_nat (index - 1) in
    match es !! i with
    | Some deleted =>
        set_expenses (delete i es) ;;
        print (Deleted deleted) ;;
        save_data ;;
        ret true
    | None => ret false (* [pop] past the end: excluded by the check above *)
    end.

(** The dictionaries [by_category] and [by_month] of [show_summary]. *)
Definition by_category (es : list expense) : gmap string float :=
  foldl (λ d e, accumulate (category e) (amount e) d) ∅ es.

Definition by_month (es : list expense) : gmap string float :=
  foldl (λ d e, accumulate (slice_to 7 (date e)) (amount e) d) ∅ es.

(** [show_summary] *)
Definition show_summary : M unit :=
  es <- get_expenses ;;
  match es with
  | [] => print NoSummary
  | _ =>
      let total := py_sum (amount <$> es) in
      print (TotalSpent total) ;;
      print ByCategoryHeader ;;
      print_all (uncurry GroupLine <$> sorted_items (by_category es)) ;;
      print ByMonthHeader ;;
      print_all (uncurry GroupLine <$> sorted_items (by_month es))
  end.

End ExpenseTracker.

(** ** Runs of the program *)

(** A command of the prompt loop, with the text the user typed for it. *)
Inductive command : Type :=
| Add (amount date note category : string)
| Update (index : Z) (amount date note category : option string)
| Delete (index : Z)
| View (filter_category filter_date : option string)
| Summary.

Section runs.
Variable float_of_str : string → option float.

Definition run (c : command) (t : tracker) : tracker :=
  match c with
  | Add a d n c => snd (add_expense float_of_str a d n c t)
  | Update i a d n c => snd (update_expense float_of_str i a d n c t)
  | Delete i => snd (delete_expense i t)
  | View fc fd => snd (view_expenses fc fd t)
  | Summary => snd (show_summary t)
  end.

(** The states a session can be in: it starts with the load and then runs
    commands one after the other. *)
Inductive reachable (file : file_content) (can_write : bool) : tracker → Prop :=
| reachable_init : reachable file can_write (init file can_write)
| reachable_step c t :
    reachable file can_write t → reachable file can_write (run c t).

End runs.

(** ** A parser for plain decimal literals

    An instance of [float_of_str] for the examples.  It reads an optional
    sign and [digits] or [digits.digits] with at most fifteen digits in all,
    and the word [nan]; blanks around the text are ignored.  On these texts
    it gives the value of [float]: the digits read as an integer and the power
    of ten are both exact in binary64, so their quotient is correctly
    rounded.  It rejects every other text. *)

Module Decimal.
Import PyStr.

Definition of_Z (z : Z) : float := PrimFloat.of_uint63 (Uint63.of_Z z).

(** The digits before the first character that is not one, and the rest. *)
Fixpoint span_digits (s : string) : string * string :=
  match s with
  | String c s' =>
      if isdigit c
      then let (ds, rest) := span_digits s' in (String c ds, rest)
      else (EmptyString, s)
  | EmptyString => (EmptyString, EmptyString)
  end.

Definition magnitude (s : string) : option float :=
  let (whole, rest) := span_digits s in
  match whole, rest with
  | String _ _, EmptyString =>
      if (String.length whole <=? 15)%nat
      then Some (of_Z (digits_value 0 whole)) else None
  | String _ _, String "." frac =>
      let (fs, rest') := span_digits frac in
      match fs, rest' with
      | String _ _, EmptyString =>
          if (String.length whole + String.length fs <=? 15)%nat
          then Some (PrimFloat.div (of_Z (digits_value 0 (whole +:+ fs)))
                                   (of_Z (10 ^ Z.of_nat (String.length fs))))
          else None
      | _, _ => None
      end
  | _, _ => None
  end.

Definition float_of_decimal (text : string) : option float :=
  let s := strip text in
  if String.eqb (lower s) "nan" then Some PrimFloat.nan
  else
    match s with
    | String "-" s' => PrimFloat.opp <$> magnitude s'
    | String "+" s' => magnitude s'
    | _ => magnitude s
    end.

End Decimal.

Example float_of_decimal_10 : Decimal.float_of_decimal "10" = Some 10%float.
Proof. reflexivity. Qed.
Example float_of_decimal_12_5 : Decimal.float_of_decimal " 12.50" = Some 12.5%float.
Proof. reflexivity. Qed.
Example float_of_decimal_0_25 : Decimal.float_of_decimal "0.25" = Some 0.25%float.
Proof. reflexivity. Qed.
Example float_of_decimal_neg : Decimal.float_of_decimal "-3" = Some (-3)%float.
Proof. reflexivity. Qed.
Example float_of_decimal_text : Decimal.float_of_decimal "ten" = None.
Proof. reflexivity. Qed.

(** ** Facts about floats *)

(** A float above zero is not at most zero. *)
Lemma ltb_zero_not_leb (a : float) :
  PrimFloat.ltb PrimFloat.zero a = true → PrimFloat.leb a PrimFloat.zero = false.
Proof.
  rewrite FloatAxioms.ltb_spec, FloatAxioms.leb_spec. unfold SFltb, SFleb.
  change (Prim2SF PrimFloat.zero) with (S754_zero false).
  destruct (Prim2SF a) as [sg|sg| |sg m e]; simpl; try destruct sg; simpl; congruence.
Qed.

(** Without NaN the converse holds as well. *)
Lemma not_leb_zero_ltb (a : float) :
  PrimFloat.is_nan a = false →
  PrimFloat.leb a PrimFloat.zero = false → PrimFloat.ltb PrimFloat.zero a = true.
Proof.
  unfold PrimFloat.is_nan.
  rewrite FloatAxioms.eqb_spec, FloatAxioms.ltb_spec, FloatAxioms.leb_spec.
  unfold SFeqb, SFltb, SFleb.
  change (Prim2SF PrimFloat.zero) with (S754_zero false).
  destruct (Prim2SF a) as [sg|sg| |sg m e]; simpl; try destruct sg; simpl;
    try congruence.
  all: unfold SFcompare; simpl; rewrite ?Z.compare_refl, ?Pos.compare_refl; simpl;
    congruence.
Qed.

(** ** Facts about the methods *)

Section method_facts.
Import PyStr DateText.
Variable float_of_str : string → option float.

(** Two states with the same list and the same file. *)
Definition same_store (t t' : tracker) : Prop :=
  expenses t' = expenses t ∧ data_file t' = data_file t ∧ writable t' = writable t.

Lemma validate_amount_accepts amount a t :
  float_of_str amount = Some a → PrimFloat.leb a PrimFloat.zero = false →
  validate_amount float_of_str amount t = (Some a, t).
Proof. intros Hp Hle. unfold validate_amount. by rewrite Hp, Hle. Qed.

(** The verdict on an amount does not depend on the state, and an accepted
    amount is the parsed number, which is not at most zero. *)
Lemma validate_amount_Some amount v t :
  fst (validate_amount float_of_str amount t) = Some v ↔
  float_of_str amount = Some v ∧ PrimFloat.leb v PrimFloat.zero = false.
Proof.
  unfold validate_amount. destruct (float_of_str amount) as [a|]; simpl.
  - destruct (PrimFloat.leb a PrimFloat.zero) eqn:Hle; simpl; split.
    + discriminate.
    + intros [[= ->] ?]. congruence.
    + by intros [= ->].
    + by intros [[= ->] _].
  - split; [discriminate|]. by intros [? _].
Qed.

Lemma validate_amount_store amount t :
  same_store t (snd (validate_amount float_of_str amount t)).
Proof.
  unfold validate_amount. destruct (float_of_str amount) as [a|]; simpl; [|done].
  by destruct (PrimFloat.leb a PrimFloat.zero).
Qed.

Lemma validate_date_Some date_str v t :
  fst (validate_date date_str t) = Some v ↔ v = date_str ∧ lenient_date date_str.
Proof.
  rewrite <- strptime_lenient. unfold validate_date.
  destruct (Strptime.strptime date_str) as [ymd|]; simpl; split.
  - intros [= <-]. eauto.
  - by intros [-> _].
  - discriminate.
  - intros [_ [? ?]]. discriminate.
Qed.

Lemma validate_date_None date_str t :
  fst (validate_date date_str t) = None ↔ ¬ lenient_date date_str.
Proof.
  rewrite <- strptime_lenient. unfold validate_date.
  destruct (Strptime.strptime date_str) as [ymd|]; simpl; split.
  - discriminate.
  - intros H. destruct H. eauto.
  - intros _ [? ?]. discriminate.
  - done.
Qed.

Lemma validate_date_accepts date_str t :
  lenient_date date_str → validate_date date_str t = (Some date_str, t).
Proof.
  rewrite <- strptime_lenient. unfold validate_date. by intros [ymd ->].
Qed.

Lemma validate_date_store date_str t :
  same_store t (snd (validate_date date_str t)).
Proof. unfold validate_date. by destruct (Strptime.strptime date_str). Qed.

End method_facts.

(** ** Adding a record *)

Section add_claims.
Import PyStr DateText.
Variable float_of_str : string → option float.

(** What [save_data] leaves in the file after a change of the list. *)
Definition persisted (before after : tracker) : Prop :=
  data_file after
  = (if writable before then Json (expenses after) else data_file before).

(** C1: when the amount text parses to a number above zero and the date text
    is accepted by [validate_date], [add_expense] returns [True]; the list
    grows by exactly one record, placed last; that record holds the parsed
    amount, the date text as given, the stripped note and the stripped
    category, or [Uncategorized] when nothing is left of it; the records that
    were there stay where they were; and the list is saved. *)
Theorem add_expense_appends (amount date note category : string)
    (a : float) (t : tracker) :
  float_of_str amount = Some a →
  PrimFloat.ltb PrimFloat.zero a = true →
  is_Some (fst (validate_date date t)) →
  let new :=
    {| amount := a; date := date; note := strip note;
       category := if decide (strip category = EmptyString)
                   then "Uncategorized" else strip category |} in
  let t' := snd (add_expense float_of_str amount date note category t) in
  fst (add_expense float_of_str amount date note category t) = true
  ∧ expenses t' = expenses t ++ [new]
  ∧ length (expenses t') = S (length (expenses t))
  ∧ (∀ i e, expenses t !! i = Some e → expenses t' !! i = Some e)
  ∧ expenses t' !! length (expenses t) = Some new
  ∧ persisted t t'.
Proof.
  intros Hparse Hpos [v Hdate] new t'.
  apply validate_date_Some in Hdate as [_ Hdate].
  assert (add_expense float_of_str amount date note category t
          = (true, snd (add_expense float_of_str amount date note category t))
          ∧ expenses t' = expenses t ++ [new] ∧ persisted t t') as (Hr & Hes & Hp).
  { subst t'. unfold add_expense, bind.
    rewrite (validate_amount_accepts _ amount a t Hparse (ltb_zero_not_leb a Hpos)).
    rewrite (validate_date_accepts date t Hdate).
    unfold get_expenses, set_expenses, save_data, print, ret, persisted. simpl.
    assert (or_else (strip category) "Uncategorized"
            = if decide (strip category = EmptyString)
              then "Uncategorized" else strip category) as ->.
    { unfold or_else. destruct (strip category); by repeat case_decide. }
    destruct (writable t); simpl; done. }
  rewrite Hr. split; [done|]. split; [done|].
  rewrite Hes. split; [rewrite length_app; simpl; lia|].
  split; [intros i e Hi; by apply lookup_app_l_Some|].
  split; [|exact Hp].
  rewrite lookup_app_r by lia. by rewrite Nat.sub_diag.
Qed.

(** C6: when the amount text is not a number, or parses to a value at most
    zero, or when the date text is refused, [add_expense] returns [False] and
    neither the list nor the file changes. *)
Theorem add_expense_rejects (amount date note category : string) (t : tracker) :
  float_of_str amount = None
  ∨ (∃ a, float_of_str amount = Some a ∧ PrimFloat.leb a PrimFloat.zero = true)
  ∨ fst (validate_date date t) = None →
  let t' := snd (add_expense float_of_str amount date note category t) in
  fst (add_expense float_of_str amount date note category t) = false
  ∧ expenses t' = expenses t
  ∧ length (expenses t') = length (expenses t)
  ∧ data_file t' = data_file t.
Proof.
  intros H t'.
  assert (fst (add_expense float_of_str amount date note category t) = false ∧ same_store t t')
    as (Hr & Hes & Hf & _); [|by rewrite Hes].
  subst t'. unfold add_expense, bind.
  pose proof (validate_amount_store float_of_str amount t) as Hs1.
  destruct (validate_amount float_of_str amount t) as [va t1] eqn:E1.
  pose proof (validate_date_store date t1) as Hs2.
  destruct (validate_date date t1) as [vd t2] eqn:E2.
  simpl in Hs1, Hs2.
  assert (same_store t t2) as Hs.
  { destruct Hs1 as (? & ? & ?), Hs2 as (? & ? & ?). repeat split; congruence. }
  destruct va as [a|]; [|done]. destruct vd as [d|]; [|done].
  exfalso.
  assert (fst (validate_amount float_of_str amount t) = Some a) as Ha by by rewrite E1.
  apply validate_amount_Some in Ha as [Hp Hle].
  assert (fst (validate_date date t1) = Some d) as Hd by by rewrite E2.
  apply validate_date_Some in Hd as [_ Hd].
  destruct H as [H|[(a' & H & Hle')|H]].
  - congruence.
  - congruence.
  - apply validate_date_None in H. done.
Qed.

End add_claims.

(** ** Updating and deleting a record *)

Section update_facts.
Import PyStr DateText.
Variable float_of_str : string → option float.

Lemma bind_run {A B : Type} (m : M A) (k : A → M B) t :
  bind m k t = k (fst (m t)) (snd (m t)).
Proof. unfold bind. by destruct (m t). Qed.

Lemma bind_seq4 {B : Type} (b1 b2 b3 b4 : M unit) (k : M B) t :
  (b1 ;; b2 ;; b3 ;; b4 ;; k) t = k (snd ((b1 ;; b2 ;; b3 ;; b4) t)).
Proof.
  unfold bind. destruct (b1 t) as [? t1], (b2 t1) as [? t2], (b3 t2) as [? t3].
  by destruct (b4 t3).
Qed.

(** A block of statements that only rewrites record [i] by [f]. *)
Definition alters (i : nat) (f : expense → expense) (m : M unit) : Prop :=
  ∀ t, expenses (snd (m t)) = alter f i (expenses t)
       ∧ data_file (snd (m t)) = data_file t
       ∧ writable (snd (m t)) = writable t.

Lemma alters_assign i f : alters i f (assign i f).
Proof. by intros t. Qed.

Lemma alters_ret i f : (∀ e, f e = e) → alters i f (ret tt).
Proof. intros Hf t. simpl. by rewrite list_alter_id. Qed.

Lemma alters_seq i f g (m k : M unit) :
  alters i f m → alters i g k → alters i (g ∘ f) (m ;; k).
Proof.
  intros Hm Hk t. rewrite bind_run.
  destruct (Hm t) as (E1 & F1 & W1), (Hk (snd (m t))) as (E2 & F2 & W2).
  rewrite E2, E1, F2, F1, W2, W1. by rewrite list_alter_alter_eq.
Qed.

(** The amount a record ends with: the supplied text when it is non-empty
    and accepted, the old amount otherwise; likewise for the other keys. *)
Definition apply_amount (amount : option string) (e : expense) : expense :=
  match amount with
  | Some a =>
      if truthy a
      then match float_of_str a with
           | Some v => if PrimFloat.leb v PrimFloat.zero then e else set_amount v e
           | None => e
           end
      else e
  | None => e
  end.

Definition apply_date (date : option string) (e : expense) : expense :=
  match date with
  | Some d =>
      if truthy d
      then match Strptime.strptime d with Some _ => set_date d e | None => e end
      else e
  | None => e
  end.

Definition apply_note (note : option string) (e : expense) : expense :=
  match note with
  | Some n => set_note (strip n) e
  | None => e
  end.

Definition apply_category (category : option string) (e : expense) : expense :=
  match category with
  | Some c => set_category (or_else (strip c) "Uncategorized") e
  | None => e
  end.

Lemma alters_amount i amount :
  alters i (apply_amount amount)
    (match amount with
     | Some a =>
         if truthy a
         then validated <- validate_amount float_of_str a ;;
              match validated with
              | Some v => assign i (set_amount v)
              | None => ret tt
              end
         else ret tt
     | None => ret tt
     end).
Proof.
  unfold apply_amount.
  destruct amount as [a|]; [|by apply alters_ret].
  destruct (truthy a); [|by apply alters_ret].
  intros t. rewrite bind_run. unfold validate_amount.
  destruct (float_of_str a) as [v|]; simpl; [|by rewrite list_alter_id].
  destruct (PrimFloat.leb v PrimFloat.zero); simpl; [by rewrite list_alter_id|done].
Qed.

Lemma alters_date i date :
  alters i (apply_date date)
    (match date with
     | Some d =>
         if truthy d
         then validated <- validate_date d ;;
              match validated with
              | Some v => assign i (set_date v)
              | None => ret tt
              end
         else ret tt
     | None => ret tt
     end).
Proof.
  unfold apply_date.
  destruct date as [d|]; [|by apply alters_ret].
  destruct (truthy d); [|by apply alters_ret].
  intros t. rewrite bind_run. unfold validate_date.
  destruct (Strptime.strptime d); simpl; [done|by rewrite list_alter_id].
Qed.

Lemma alters_note i note :
  alters i (apply_note note)
    (match note with
     | Some n => assign i (set_note (strip n))
     | None => ret tt
     end).
Proof. destruct note; [apply alters_assign|by apply alters_ret]. Qed.

Lemma alters_category i category :
  alters i (apply_category category)
    (match category with
     | Some c => assign i (set_category (or_else (strip c) "Uncategorized"))
     | None => ret tt
     end).
Proof. destruct category; [apply alters_assign|by apply alters_ret]. Qed.

(** The record an update leaves at the target position. *)
Definition updated (amount date note category : option string) (e : expense)
    : expense :=
  apply_category category (apply_note note (apply_date date (apply_amount amount e))).

(** With an index in range [update_expense] rewrites the target record key
    by key, saves and returns [True]. *)
Lemma update_expense_in_range index amount date note category t :
  index_ok index (expenses t) = true →
  let t' := snd (update_expense float_of_str index amount date note category t) in
  fst (update_expense float_of_str index amount date note category t) = true
  ∧ expenses t'
    = alter (updated amount date note category) (Z.to_nat (index - 1)) (expenses t)
  ∧ persisted t t'.
Proof.
  intros Hok t'. subst t'.
  unfold update_expense.
  rewrite bind_run. simpl fst. simpl snd. rewrite Hok.
  change (negb true) with false. cbv iota.
  set (i := Z.to_nat (index - 1)).
  pose proof (alters_seq i _ _ _ _ (alters_amount i amount)
                (alters_seq i _ _ _ _ (alters_date i date)
                   (alters_seq i _ _ _ _ (alters_note i note)
                      (alters_category i category)))) as Hblocks.
  rewrite bind_seq4.
  match type of Hblocks with
  | alters _ _ ?m => destruct (Hblocks t) as (E & F & W); set (t1 := snd (m t)) in *
  end.
  unfold persisted, save_data, print, ret, bind. simpl. rewrite W.
  destruct (writable t); simpl; rewrite ?E, ?F; done.
Qed.

Lemma update_expense_out_of_range index amount date note category t :
  index_ok index (expenses t) = false →
  update_expense float_of_str index amount date note category t = (false, snd (print InvalidIndex t)).
Proof.
  intros Hok. unfold update_expense.
  rewrite bind_run. unfold get_expenses at 1 2. cbn [fst snd]. by rewrite Hok.
Qed.

Lemma index_ok_true index (es : list expense) :
  index_ok index es = true ↔ 1 ≤ index ≤ Z.of_nat (length es).
Proof. unfold index_ok. rewrite andb_true_iff, !Z.leb_le. done. Qed.

Lemma index_ok_false index (es : list expense) :
  index_ok index es = false ↔ ¬ (1 ≤ index ≤ Z.of_nat (length es)).
Proof.
  rewrite <- index_ok_true. destruct (index_ok index es); split; congruence.
Qed.

Lemma index_lookup index (es : list expense) :
  1 ≤ index ≤ Z.of_nat (length es) → is_Some (es !! Z.to_nat (index - 1)).
Proof. intros H. apply lookup_lt_is_Some. lia. Qed.

End update_facts.

Section delete_facts.

Lemma delete_expense_in_range index t e :
  index_ok index (expenses t) = true →
  expenses t !! Z.to_nat (index - 1) = Some e →
  let t' := snd (delete_expense index t) in
  fst (delete_expense index t) = true
  ∧ expenses t' = delete (Z.to_nat (index - 1)) (expenses t)
  ∧ console t'
    = console t ++ [Deleted e;
                    if writable t then Saved (length (expenses t'))
                    else SaveError]
  ∧ persisted t t'.
Proof.
  intros Hok He t'.
  assert (delete_expense index t
          = (set_expenses (delete (Z.to_nat (index - 1)) (expenses t)) ;;
             print (Deleted e) ;; save_data ;; ret true) t) as E.
  { unfold delete_expense. rewrite bind_run.
    change (fst (get_expenses t)) with (expenses t).
    change (snd (get_expenses t)) with t. by rewrite Hok, He. }
  subst t'. rewrite E.
  unfold persisted, bind, set_expenses, print, save_data, ret. simpl.
  destruct (writable t); simpl; rewrite <- ?app_assoc; done.
Qed.

Lemma delete_expense_out_of_range index t :
  index_ok index (expenses t) = false →
  delete_expense index t = (false, snd (print InvalidIndex t)).
Proof.
  intros Hok. unfold delete_expense. rewrite bind_run.
  change (fst (get_expenses t)) with (expenses t).
  change (snd (get_expenses t)) with t. by rewrite Hok.
Qed.

End delete_facts.

Section update_claims.
Import PyStr DateText.
Variable float_of_str : string → option float.

(** The keys of the record an update leaves, one by one. *)
Lemma updated_fields new_amount new_date new_note new_category e t :
  let e' := updated float_of_str new_amount new_date new_note new_category e in
  amount e'
    = match new_amount with
      | Some a =>
          if truthy a then default (amount e) (fst (validate_amount float_of_str a t))
          else amount e
      | None => amount e
      end
  ∧ date e'
    = match new_date with
      | Some d =>
          if truthy d then default (date e) (fst (validate_date d t))
          else date e
      | None => date e
      end
  ∧ note e'
    = match new_note with Some n => strip n | None => note e end
  ∧ category e'
    = match new_category with
      | Some c => or_else (strip c) "Uncategorized"
      | None => category e
      end.
Proof.
  unfold updated, apply_category, apply_note, apply_date, apply_amount,
    validate_amount, validate_date.
  destruct new_amount as [a|], new_date as [d|], new_note as [n|],
    new_category as [c|];
    repeat match goal with
      | |- context [truthy ?s] => destruct (truthy s)
      | |- context [float_of_str ?s] => destruct (float_of_str s)
      | |- context [PrimFloat.leb ?v PrimFloat.zero] =>
          destruct (PrimFloat.leb v PrimFloat.zero)
      | |- context [Strptime.strptime ?s] => destruct (Strptime.strptime s)
      end; done.
Qed.

(** C4: with an index in range, [update_expense] treats each supplied key on
    its own.  The amount and the date are replaced when the supplied text is
    accepted by its validator and keep their value when it is refused; the
    note and the category are replaced whenever they are supplied; the other
    records stay as they were; and whatever was accepted, the list is saved
    and the call returns [True]. *)
Theorem update_expense_keywise (index : Z)
    (new_amount new_date new_note new_category : option string) (t : tracker) :
  1 ≤ index ≤ Z.of_nat (length (expenses t)) →
  let i := Z.to_nat (index - 1) in
  let t' := snd (update_expense float_of_str index new_amount new_date new_note new_category t) in
  fst (update_expense float_of_str index new_amount new_date new_note new_category t) = true
  ∧ persisted t t'
  ∧ length (expenses t') = length (expenses t)
  ∧ (∀ j, j ≠ i → expenses t' !! j = expenses t !! j)
  ∧ ∃ e e', expenses t !! i = Some e ∧ expenses t' !! i = Some e'
      ∧ amount e'
        = match new_amount with
          | Some a =>
              if truthy a
              then default (amount e) (fst (validate_amount float_of_str a t))
              else amount e
          | None => amount e
          end
      ∧ date e'
        = match new_date with
          | Some d =>
              if truthy d
              then default (date e) (fst (validate_date d t))
              else date e
          | None => date e
          end
      ∧ note e'
        = match new_note with Some n => strip n | None => note e end
      ∧ category e'
        = match new_category with
          | Some c => or_else (strip c) "Uncategorized"
          | None => category e
          end.
Proof.
  intros Hrange i t'.
  destruct (update_expense_in_range float_of_str index new_amount new_date new_note new_category t)
    as (Hr & Hes & Hp); [by apply index_ok_true|].
  fold t' in Hes, Hp. fold i in Hes.
  pose proof (index_lookup index (expenses t) Hrange) as [e He]. fold i in He.
  split; [done|]. split; [done|].
  rewrite Hes. split; [apply length_alter|].
  split; [intros j Hj; by apply list_lookup_alter_ne|].
  exists e, (updated float_of_str new_amount new_date new_note new_category e).
  split; [done|]. split; [by rewrite list_lookup_alter_eq, He|].
  apply updated_fields.
Qed.

(** C9: with an index in range and only a note supplied, the target record
    gets the stripped note and keeps its amount, date and category; every
    other record is unchanged. *)
Theorem update_expense_note_only (index : Z) (n : string) (t : tracker) :
  1 ≤ index ≤ Z.of_nat (length (expenses t)) →
  let i := Z.to_nat (index - 1) in
  let t' := snd (update_expense float_of_str index None None (Some n) None t) in
  ∃ e e', expenses t !! i = Some e ∧ expenses t' !! i = Some e'
    ∧ note e' = strip n
    ∧ amount e' = amount e ∧ date e' = date e ∧ category e' = category e
    ∧ expenses t' = <[i := e']> (expenses t)
    ∧ (∀ j, j ≠ i → expenses t' !! j = expenses t !! j)
    ∧ length (expenses t') = length (expenses t).
Proof.
  intros Hrange i t'.
  destruct (update_expense_in_range float_of_str index None None (Some n) None t)
    as (Hr & Hes & Hp); [by apply index_ok_true|].
  fold t' in Hes. fold i in Hes.
  pose proof (index_lookup index (expenses t) Hrange) as [e He]. fold i in He.
  exists e, (set_note (strip n) e). rewrite Hes.
  split; [done|]. split; [by rewrite list_lookup_alter_eq, He|].
  do 4 (split; [done|]).
  split; [|split; [intros j Hj; by apply list_lookup_alter_ne|apply length_alter]].
  rewrite list_insert_alter. apply list_alter_ext; [|done].
  intros e0 He0. rewrite He in He0. by injection He0 as <-.
Qed.

(** C5: with an index below 1 or above the length of the list, both
    [update_expense] and [delete_expense] return [False]; the list is the
    same afterwards, record for record, and the file is not written. *)
Theorem out_of_range_no_change (index : Z)
    (amount date note category : option string) (t : tracker) :
  index < 1 ∨ Z.of_nat (length (expenses t)) < index →
  (fst (update_expense float_of_str index amount date note category t) = false
   ∧ expenses (snd (update_expense float_of_str index amount date note category t)) = expenses t
   ∧ data_file (snd (update_expense float_of_str index amount date note category t)) = data_file t)
  ∧ (fst (delete_expense index t) = false
     ∧ expenses (snd (delete_expense index t)) = expenses t
     ∧ data_file (snd (delete_expense index t)) = data_file t).
Proof.
  intros Hout.
  assert (index_ok index (expenses t) = false) as Hok by (apply index_ok_false; lia).
  rewrite (update_expense_out_of_range float_of_str _ _ _ _ _ _ Hok).
  by rewrite (delete_expense_out_of_range _ _ Hok).
Qed.

(** C7: with an index [i] in range, [delete_expense] returns [True] and
    prints the record that stood at position [i]; the list is one shorter,
    the records before position [i] keep their places and the records after
    it move one place down, so the removed record is gone and the rest keeps
    its order; and the list is saved. *)
Theorem delete_expense_removes (index : Z) (t : tracker) :
  1 ≤ index ≤ Z.of_nat (length (expenses t)) →
  let i := Z.to_nat (index - 1) in
  let t' := snd (delete_expense index t) in
  ∃ e, expenses t !! i = Some e
    ∧ fst (delete_expense index t) = true
    ∧ Deleted e ∈ console t'
    ∧ Z.of_nat (length (expenses t')) = Z.of_nat (length (expenses t)) - 1
    ∧ expenses t' = take i (expenses t) ++ drop (S i) (expenses t)
    ∧ (∀ j, (j < i)%nat → expenses t' !! j = expenses t !! j)
    ∧ (∀ j, (i ≤ j)%nat → expenses t' !! j = expenses t !! S j)
    ∧ persisted t t'.
Proof.
  intros Hrange i t'.
  pose proof (index_lookup index (expenses t) Hrange) as [e He]. fold i in He.
  destruct (delete_expense_in_range index t e) as (Hr & Hes & Hc & Hp);
    [by apply index_ok_true|done|].
  fold t' in Hes, Hc, Hp. fold i in Hes.
  exists e. split; [done|]. split; [done|].
  split; [rewrite Hc; apply elem_of_app; right; by left|].
  rewrite Hes. split.
  { rewrite length_delete by eauto. apply lookup_lt_Some in He. lia. }
  split; [apply delete_take_drop|].
  split; [intros j Hj; by apply list_lookup_delete_lt|].
  split; [intros j Hj; by apply list_lookup_delete_ge|].
  exact Hp.
Qed.

End update_claims.

(** ** Dates *)

Section date_claims.
Import PyStr DateText.
Variable float_of_str : string → option float.

(** What [add_expense] can do to the list: nothing, or append one record
    built from accepted inputs. *)
Lemma add_expense_cases amount date note category t :
  let t' := snd (add_expense float_of_str amount date note category t) in
  (fst (add_expense float_of_str amount date note category t) = false
   ∧ expenses t' = expenses t)
  ∨ (∃ a, float_of_str amount = Some a
          ∧ PrimFloat.leb a PrimFloat.zero = false
          ∧ lenient_date date
          ∧ expenses t'
            = expenses t
              ++ [Expense a date (strip note)
                    (or_else (strip category) "Uncategorized")]).
Proof.
  intros t'. subst t'. unfold add_expense.
  rewrite bind_run.
  pose proof (validate_amount_store float_of_str amount t) as (E1 & _).
  pose proof (validate_amount_Some float_of_str amount) as Ha.
  specialize (λ v, Ha v t).
  destruct (validate_amount float_of_str amount t) as [va t1]. simpl in *.
  rewrite bind_run.
  pose proof (validate_date_store date t1) as (E2 & _).
  pose proof (λ v, validate_date_Some date v t1) as Hd.
  destruct (validate_date date t1) as [vd t2]. simpl in *.
  destruct va as [a|]; [|left; split; [done|simpl; congruence]].
  destruct vd as [d|]; [|left; split; [done|simpl; congruence]].
  right. exists a.
  destruct (proj1 (Ha a) eq_refl) as [Hp Hle].
  destruct (proj1 (Hd d) eq_refl) as [-> Hl].
  split; [done|]. split; [done|]. split; [done|].
  unfold bind, get_expenses, set_expenses, save_data, print, ret. simpl.
  destruct (writable t2); simpl; congruence.
Qed.

Lemma not_strict_unpadded : ¬ strict_date "2024-1-5".
Proof.
  intros (y & m & d & (Y & M & D & E & (_ & HlenY & _) & (HdM & HlenM & _) & _) & _).
  destruct Y as [|c1 [|c2 [|c3 [|c4 [|c5 Y]]]]]; simpl in HlenY; try lia.
  destruct M as [|m1 [|m2 [|m3 M]]]; simpl in HlenM; try lia.
  cbv [String.append] in E. discriminate E.
Qed.


End date_claims.

(** ** Listing *)

Section view_claims.
Import PyStr.

Lemma view_expenses_store fc fd t : same_store t (snd (view_expenses fc fd t)).
Proof.
  unfold view_expenses. rewrite bind_run.
  change (fst (get_expenses t)) with (expenses t).
  change (snd (get_expenses t)) with t.
  destruct (expenses t) as [|e es]; [done|].
  cbv zeta.
  match goal with
  | |- context [match ?l with [] => print NoMatch | _ :: _ => _ end] =>
      destruct l
  end; done.
Qed.

(** The lines of a listing of [es], numbered from 1. *)
Definition listing (es : list expense) : list message :=
  ExpensesHeader :: imap (λ i e, ExpenseLine (S i) e) es.

(** C10: an empty filter text counts as no filter.  With the empty string as
    category filter, as date filter or as both, [view_expenses] prints what
    it prints without that filter; with both empty that is every record of a
    non-empty list, in order, whatever its category and date. *)
Theorem view_expenses_empty_filter (fc fd : option string) (t : tracker) :
  view_expenses (Some EmptyString) fd t = view_expenses None fd t
  ∧ view_expenses fc (Some EmptyString) t = view_expenses fc None t
  ∧ console (snd (view_expenses (Some EmptyString) (Some EmptyString) t))
    = console t ++ match expenses t with
                   | [] => [NoExpensesFound]
                   | es => listing es
                   end
  ∧ (∀ i e, expenses t !! i = Some e →
            ExpenseLine (S i) e
            ∈ console (snd (view_expenses (Some EmptyString) (Some EmptyString) t))).
Proof.
  assert (console (snd (view_expenses (Some EmptyString) (Some EmptyString) t))
          = console t ++ match expenses t with
                         | [] => [NoExpensesFound]
                         | es => listing es
                         end) as Hall.
  { unfold view_expenses. rewrite bind_run.
    change (fst (get_expenses t)) with (expenses t).
    change (snd (get_expenses t)) with t.
    destruct (expenses t) as [|e es]; [done|].
    simpl. unfold listing. simpl. by rewrite <- app_assoc. }
  split; [reflexivity|]. split; [reflexivity|]. split; [exact Hall|].
  intros i e He. rewrite Hall. apply elem_of_app. right.
  destruct (expenses t) as [|e0 es] eqn:Hes; [done|].
  unfold listing. right. apply list_elem_of_lookup. exists i.
  by rewrite list_lookup_imap, He.
Qed.

End view_claims.

(** ** The records of a session *)

Section invariant_facts.
Import PyStr DateText.
Variable float_of_str : string → option float.

(** What holds of every record the methods store: the amount passed the test
    of [validate_amount], the date passed [validate_date], and the category
    is not empty. *)
Definition record_ok (e : expense) : Prop :=
  PrimFloat.leb (amount e) PrimFloat.zero = false
  ∧ lenient_date (date e)
  ∧ category e ≠ EmptyString.

(** The same in the words of the data model: an amount above zero and a date
    in strict [YYYY-MM-DD] form. *)
Definition record_strict (e : expense) : Prop :=
  PrimFloat.ltb PrimFloat.zero (amount e) = true
  ∧ strict_date (date e)
  ∧ category e ≠ EmptyString.

(** A data file whose records, if it has any, are all fine. *)
Definition file_ok (file : file_content) : Prop :=
  match file with
  | Json records => Forall record_ok records
  | Absent | Unreadable => True
  end.

Lemma init_expenses file w :
  expenses (init file w) = match file with Json records => records | _ => [] end.
Proof. unfold init, load_data, bind. simpl. by destruct file. Qed.

Lemma default_category_nonempty c :
  or_else (strip c) "Uncategorized" ≠ EmptyString.
Proof. unfold or_else. by destruct (strip c). Qed.

Lemma updated_ok amount date note category e :
  record_ok e → record_ok (updated float_of_str amount date note category e).
Proof.
  intros (Ha & Hd & Hc).
  unfold updated, apply_category, apply_note, apply_date, apply_amount, record_ok.
  assert (∀ d, is_Some (Strptime.strptime d) → lenient_date d) as Hl
    by (intros d; apply strptime_lenient).
  pose proof default_category_nonempty as Hdc.
  destruct amount as [a|], date as [d|], note as [n|], category as [c|];
    repeat match goal with
      | |- context [truthy ?s] => destruct (truthy s)
      | |- context [float_of_str ?s] => destruct (float_of_str s)
      | |- context [PrimFloat.leb ?v PrimFloat.zero] =>
          destruct (PrimFloat.leb v PrimFloat.zero) eqn:?
      | |- context [Strptime.strptime ?s] => destruct (Strptime.strptime s) eqn:?
      end; simpl; split_and!; eauto.
Qed.

Lemma show_summary_store t : same_store t (snd (show_summary t)).
Proof.
  unfold show_summary. rewrite bind_run.
  change (fst (get_expenses t)) with (expenses t).
  change (snd (get_expenses t)) with t.
  by destruct (expenses t).
Qed.

(** Every command keeps the records fine. *)
Lemma run_ok c t :
  Forall record_ok (expenses t) → Forall record_ok (expenses (run float_of_str c t)).
Proof.
  intros Hok. destruct c as [a d n c|i a d n c|i|fc fd|]; simpl.
  - destruct (add_expense_cases float_of_str a d n c t)
      as [[_ ->]|(v & _ & Hle & Hl & ->)]; [done|].
    apply Forall_app. split; [done|]. apply Forall_singleton.
    split; [done|]. split; [done|]. apply default_category_nonempty.
  - destruct (index_ok i (expenses t)) eqn:Hi.
    + destruct (update_expense_in_range float_of_str i a d n c t Hi) as (_ & -> & _).
      apply Forall_alter; [done|]. intros e _. apply updated_ok.
    + by rewrite (update_expense_out_of_range float_of_str i a d n c t Hi).
  - destruct (index_ok i (expenses t)) eqn:Hi.
    + pose proof Hi as Hr%index_ok_true.
      destruct (index_lookup i (expenses t) Hr) as [e He].
      destruct (delete_expense_in_range i t e Hi He) as (_ & -> & _).
      by apply Forall_delete.
    + by rewrite (delete_expense_out_of_range i t Hi).
  - by destruct (view_expenses_store fc fd t) as (-> & _).
  - by destruct (show_summary_store t) as (-> & _).
Qed.

End invariant_facts.

Section invariant_claims.
Import PyStr DateText.
Variable float_of_str : string → option float.

(** C2 (amended): when the data file is absent, unreadable or holds only
    records that are fine, every record of every state the session reaches
    has an amount that is not at most zero (so above zero unless it is NaN),
    a date that [validate_date] accepts and a category that is not empty. *)
Theorem reachable_records_ok (file : file_content) (can_write : bool)
    (t : tracker) :
  file_ok file →
  reachable float_of_str file can_write t →
  Forall (λ e, record_ok e
               ∧ (PrimFloat.is_nan (amount e) = false →
                  PrimFloat.ltb PrimFloat.zero (amount e) = true))
         (expenses t).
Proof.
  intros Hfile Hreach.
  assert (Forall record_ok (expenses t)) as Hok.
  { induction Hreach as [|c t _ IH].
    - rewrite init_expenses. by destruct file.
    - by apply run_ok. }
  eapply Forall_impl; [exact Hok|].
  intros e He. split; [done|]. intros Hnan.
  apply not_leb_zero_ltb; [done|]. by destruct He.
Qed.

End invariant_claims.

(** C2, the claim as it is written, fails: the load takes the records of the
    file as they are, so a session can start with a record that has a
    negative amount, a date that is not a date and an empty category. *)
Lemma reachable_record_not_strict :
  ¬ (∀ file can_write t,
       reachable Decimal.float_of_decimal file can_write t →
       Forall record_strict (expenses t)).
Proof.
  intros H.
  pose (bad := {| amount := (-1)%float; date := "someday"; note := EmptyString;
                  category := EmptyString |}).
  specialize (H (Json [bad]) true _ (reachable_init _ _ _)).
  rewrite init_expenses in H. apply Forall_singleton in H as (Ha & _).
  vm_compute in Ha. discriminate Ha.
Qed.

(** Also from an empty list the records need not be strict: an unpadded date
    is stored as it was typed, and [nan] passes the test on the amount. *)
Lemma add_stores_unpadded_date :
  let t := snd (add_expense Decimal.float_of_decimal "12.50" "2024-1-5" "lunch"
                  "Food" (init Absent true)) in
  expenses t = [Expense 12.5%float "2024-1-5" "lunch" "Food"]
  ∧ ¬ DateText.strict_date "2024-1-5".
Proof. split; [reflexivity|apply not_strict_unpadded]. Qed.

Lemma add_stores_nan :
  let t := snd (add_expense Decimal.float_of_decimal "nan" "2024-01-05" "lunch"
                  "Food" (init Absent true)) in
  ∃ e, expenses t = [e] ∧ PrimFloat.is_nan (amount e) = true
       ∧ PrimFloat.ltb PrimFloat.zero (amount e) = false.
Proof. eexists. split; [reflexivity|]. split; reflexivity. Qed.

(** ** The summary *)

Section summary_facts.
Import PyStr.
Implicit Types (d : gmap string float) (es : list expense) (k : string).

(** The amounts of the records whose key is [k], in the order of the list. *)
Definition group_amounts (key : expense → string) (k : string)
    (es : list expense) : list float :=
  amount <$> filter (λ e, key e = k) es.

(** Strictly ascending keys. *)
Definition key_lt (x y : string * float) : Prop := String.ltb x.1 y.1 = true.

Lemma foldl_accumulate_lookup (key : expense → string) es d k :
  foldl (λ d e, accumulate (key e) (amount e) d) d es !! k
  = match group_amounts key k es with
    | [] => d !! k
    | amts => Some (foldl PrimFloat.add (default PrimFloat.zero (d !! k)) amts)
    end.
Proof.
  revert d. induction es as [|e es IH]; intros d; [done|].
  simpl. rewrite IH. unfold group_amounts, accumulate. rewrite filter_cons.
  case_decide as Hk.
  - subst k. rewrite lookup_insert_eq, fmap_cons.
    by destruct (amount <$> filter _ es).
  - by rewrite lookup_insert_ne.
Qed.

Lemma group_amounts_cons (key : expense → string) k es a l :
  group_amounts key k es = a :: l → ∃ e, e ∈ es ∧ key e = k.
Proof.
  unfold group_amounts. destruct (filter _ es) as [|e l'] eqn:Hf; [done|].
  intros _. exists e.
  assert (e ∈ filter (λ e, key e = k) es) as [Hk He]%list_elem_of_filter
    by (rewrite Hf; by left).
  done.
Qed.

Lemma group_amounts_nil (key : expense → string) k es :
  group_amounts key k es = [] → ¬ ∃ e, e ∈ es ∧ key e = k.
Proof.
  unfold group_amounts. intros Hnil%fmap_nil_inv (e & He & Hk).
  assert (e ∈ filter (λ e, key e = k) es) as Hin by by apply list_elem_of_filter.
  rewrite Hnil in Hin. by apply not_elem_of_nil in Hin.
Qed.

(** What the dictionary of a grouping holds under a key. *)
Lemma grouping_lookup (key : expense → string) es k v :
  foldl (λ d e, accumulate (key e) (amount e) d) ∅ es !! k = Some v
  ↔ (∃ e, e ∈ es ∧ key e = k) ∧ v = py_sum (group_amounts key k es).
Proof.
  rewrite foldl_accumulate_lookup, lookup_empty. simpl.
  destruct (group_amounts key k es) as [|a l] eqn:Hg.
  - split; [done|]. intros [He _]. by apply group_amounts_nil in Hg.
  - apply group_amounts_cons in Hg. unfold py_sum. split.
    + by intros [= <-].
    + by intros [_ ->].
Qed.

Global Instance item_le_total : Total item_le.
Proof. intros x y. unfold item_le. apply (total String.le). Qed.

Global Instance item_le_trans : Transitive item_le.
Proof. intros x y z. unfold item_le. apply transitivity. Qed.

Lemma elem_of_sorted_items d k v : (k, v) ∈ sorted_items d ↔ d !! k = Some v.
Proof.
  unfold sorted_items. rewrite merge_sort_Permutation. apply elem_of_map_to_list.
Qed.

Lemma le_ne_ltb (a b : string) : String.le a b → a ≠ b → String.ltb a b = true.
Proof.
  unfold String.le, String.leb, String.ltb. intros Hle Hne.
  destruct (a ?= b)%string eqn:Hc; [|done|done].
  by apply String.compare_eq_iff in Hc.
Qed.

Lemma sorted_items_ascending d : StronglySorted key_lt (sorted_items d).
Proof.
  assert (StronglySorted item_le (sorted_items d)) as Hs
    by (unfold sorted_items; apply (StronglySorted_merge_sort item_le)).
  assert (NoDup (fst <$> sorted_items d)) as Hnd.
  { unfold sorted_items. rewrite merge_sort_Permutation.
    apply NoDup_fst_map_to_list. }
  induction Hs as [|x l Hs IH Hx]; [constructor|].
  rewrite fmap_cons in Hnd. apply NoDup_cons in Hnd as [Hx' Hnd].
  constructor; [by apply IH|].
  apply Forall_forall. intros y Hy. rewrite Forall_forall in Hx.
  apply le_ne_ltb; [by apply Hx|].
  intros Heq. apply Hx'. rewrite Heq. apply list_elem_of_fmap. eauto.
Qed.

End summary_facts.

Section summary_claims.
Import PyStr.

(** The three records of the example. *)
Definition example_records : list expense :=
  [ Expense 10%float "2024-01-05" EmptyString "Food";
    Expense 5%float "2024-01-20" EmptyString "Food";
    Expense 7%float "2024-02-01" EmptyString "Travel" ].

Example example_total_either_way :
  py_sum (amount <$> example_records) = 22%float
  ∧ py_sum_compensated (amount <$> example_records) = 22%float.
Proof. split; reflexivity. Qed.

Lemma show_summary_console e es file w out :
  console (snd (show_summary (Tracker (e :: es) file w out)))
  = out ++ [TotalSpent (py_sum (amount <$> e :: es)); ByCategoryHeader]
        ++ (uncurry GroupLine <$> sorted_items (by_category (e :: es)))
        ++ [ByMonthHeader]
        ++ (uncurry GroupLine <$> sorted_items (by_month (e :: es))).
Proof.
  unfold show_summary, bind, get_expenses, print, print_all. simpl console.
  by rewrite <- !app_assoc.
Qed.

(** C8: on a non-empty list [show_summary] prints the total, which is the sum
    of all amounts; then one line per category with the sum of the amounts of
    the records of exactly that category; then one line per month with the
    sum of the amounts of the records whose date starts with these seven
    characters; the categories and the months each come in strictly ascending
    order of their keys.  On the three records of the example the total is
    22, Food 15 and Travel 7, 2024-01 15 and 2024-02 7.  On an empty list it
    prints that there is nothing to summarise. *)
Theorem show_summary_totals (e : expense) (es : list expense)
    (file : file_content) (w : bool) (out : list message) :
  let all := e :: es in
  let cats := sorted_items (by_category all) in
  let months := sorted_items (by_month all) in
  console (snd (show_summary (Tracker all file w out)))
  = out ++ [TotalSpent (py_sum (amount <$> all)); ByCategoryHeader]
        ++ (uncurry GroupLine <$> cats)
        ++ [ByMonthHeader]
        ++ (uncurry GroupLine <$> months)
  ∧ StronglySorted key_lt cats
  ∧ StronglySorted key_lt months
  ∧ (∀ k v, (k, v) ∈ cats ↔
       (∃ x, x ∈ all ∧ category x = k)
       ∧ v = py_sum (amount <$> filter (λ x, category x = k) all))
  ∧ (∀ k v, (k, v) ∈ months ↔
       (∃ x, x ∈ all ∧ slice_to 7 (date x) = k)
       ∧ v = py_sum (amount <$> filter (λ x, slice_to 7 (date x) = k) all))
  ∧ console (snd (show_summary (Tracker example_records file w out)))
    = out ++ [TotalSpent 22%float;
              ByCategoryHeader; GroupLine "Food" 15%float; GroupLine "Travel" 7%float;
              ByMonthHeader; GroupLine "2024-01" 15%float; GroupLine "2024-02" 7%float]
  ∧ console (snd (show_summary (Tracker [] file w out))) = out ++ [NoSummary].
Proof.
  intros all cats months.
  split; [apply show_summary_console|].
  split; [apply sorted_items_ascending|].
  split; [apply sorted_items_ascending|].
  split.
  { intros k v. unfold cats. rewrite elem_of_sorted_items.
    apply (grouping_lookup category). }
  split.
  { intros k v. unfold months. rewrite elem_of_sorted_items.
    apply (grouping_lookup (λ x, slice_to 7 (date x))). }
  split; [|reflexivity].
  unfold example_records. rewrite show_summary_console.
  apply (f_equal (app out)). vm_compute. reflexivity.
Qed.

End summary_claims.

(** ** The theorems at concrete inputs *)

(** A session that starts from a file holding the three example records. *)
Definition example_tracker : tracker := init (Json example_records) true.

(** C3: the code on the text 2024-1-5, which is not in strict [YYYY-MM-DD]
    form.  [validate_date] returns it; [add_expense] stores it as typed; and
    the summary, which takes the first seven characters of a date for its
    month, files the record under [2024-1-], apart from the records of
    [2024-01]. *)
Theorem validate_date_unpadded :
  ¬ DateText.strict_date "2024-1-5"
  ∧ fst (validate_date "2024-1-5" example_tracker) = Some "2024-1-5"%string
  ∧ fst (add_expense Decimal.float_of_decimal "3" "2024-1-5" "tea" "Food"
           example_tracker) = true
  ∧ expenses (snd (add_expense Decimal.float_of_decimal "3" "2024-1-5" "tea" "Food"
                     example_tracker))
    = example_records ++ [Expense 3%float "2024-1-5" "tea" "Food"]
  ∧ sorted_items
      (by_month (example_records ++ [Expense 3%float "2024-1-5" "tea" "Food"]))
    = [("2024-01"%string, 15%float); ("2024-02"%string, 7%float);
       ("2024-1-"%string, 3%float)].
Proof.
  split; [apply not_strict_unpadded|].
  split; [reflexivity|]. split; [reflexivity|]. split; [reflexivity|].
  vm_compute. reflexivity.
Qed.

Lemma add_expense_appends_witness :
  (Decimal.float_of_decimal "12.50" = Some 12.5%float
   ∧ PrimFloat.ltb PrimFloat.zero 12.5%float = true
   ∧ is_Some (fst (validate_date "2024-01-05" example_tracker)))
  ∧ fst (add_expense Decimal.float_of_decimal "12.50" "2024-01-05" " lunch " "  "
           example_tracker) = true
  ∧ expenses (snd (add_expense Decimal.float_of_decimal "12.50" "2024-01-05"
                     " lunch " "  " example_tracker))
    = example_records ++ [Expense 12.5%float "2024-01-05" "lunch" "Uncategorized"].
Proof.
  assert (Decimal.float_of_decimal "12.50" = Some 12.5%float) as Hp
    by reflexivity.
  assert (PrimFloat.ltb PrimFloat.zero 12.5%float = true) as Hpos by reflexivity.
  assert (is_Some (fst (validate_date "2024-01-05" example_tracker))) as Hd
    by (eexists; reflexivity).
  split; [by split_and!|].
  destruct (add_expense_appends Decimal.float_of_decimal "12.50" "2024-01-05"
              " lunch " "  " 12.5%float example_tracker Hp Hpos Hd)
    as (Hr & Hes & _).
  split; [exact Hr|exact Hes].
Defined.

Lemma add_expense_rejects_witness :
  (Decimal.float_of_decimal "0" = None
   ∨ (∃ a, Decimal.float_of_decimal "0" = Some a
           ∧ PrimFloat.leb a PrimFloat.zero = true)
   ∨ fst (validate_date "2024-01-05" example_tracker) = None)
  ∧ fst (add_expense Decimal.float_of_decimal "0" "2024-01-05" "lunch" "Food"
           example_tracker) = false
  ∧ expenses (snd (add_expense Decimal.float_of_decimal "0" "2024-01-05" "lunch"
                     "Food" example_tracker))
    = example_records.
Proof.
  assert (Decimal.float_of_decimal "0" = None
          ∨ (∃ a, Decimal.float_of_decimal "0" = Some a
                  ∧ PrimFloat.leb a PrimFloat.zero = true)
          ∨ fst (validate_date "2024-01-05" example_tracker) = None) as H.
  { right. left. exists 0%float. split; reflexivity. }
  split; [exact H|].
  destruct (add_expense_rejects Decimal.float_of_decimal "0" "2024-01-05" "lunch"
              "Food" example_tracker H) as (Hr & Hes & _).
  split; [exact Hr|exact Hes].
Defined.

Lemma update_expense_keywise_witness :
  1 ≤ 2 ≤ Z.of_nat (length (expenses example_tracker))
  ∧ fst (update_expense Decimal.float_of_decimal 2 (Some "abc"%string)
           (Some "2024-13-01"%string) (Some " tea "%string) None example_tracker)
    = true
  ∧ length (expenses (snd (update_expense Decimal.float_of_decimal 2
                             (Some "abc"%string) (Some "2024-13-01"%string)
                             (Some " tea "%string) None example_tracker)))
    = 3%nat.
Proof.
  assert (1 ≤ 2 ≤ Z.of_nat (length (expenses example_tracker))) as H
    by (simpl; lia).
  split; [exact H|].
  destruct (update_expense_keywise Decimal.float_of_decimal 2 (Some "abc"%string)
              (Some "2024-13-01"%string) (Some " tea "%string) None
              example_tracker H) as (Hr & _ & Hlen & _).
  split; [exact Hr|exact Hlen].
Defined.

Lemma update_expense_note_only_witness :
  1 ≤ 1 ≤ Z.of_nat (length (expenses example_tracker))
  ∧ ∃ e e',
      expenses example_tracker !! 0%nat = Some e
      ∧ expenses (snd (update_expense Decimal.float_of_decimal 1 None None
                         (Some " coffee "%string) None example_tracker))
          !! 0%nat = Some e'
      ∧ note e' = "coffee"%string
      ∧ amount e' = amount e ∧ date e' = date e ∧ category e' = category e.
Proof.
  assert (1 ≤ 1 ≤ Z.of_nat (length (expenses example_tracker))) as H
    by (simpl; lia).
  split; [exact H|].
  destruct (update_expense_note_only Decimal.float_of_decimal 1 " coffee "
              example_tracker H) as (e & e' & H1 & H2 & H3 & H4 & H5 & H6 & _).
  exists e, e'. split_and!; assumption.
Defined.

Lemma out_of_range_no_change_witness :
  (4 < 1 ∨ Z.of_nat (length (expenses example_tracker)) < 4)
  ∧ fst (update_expense Decimal.float_of_decimal 4 (Some "3"%string) None None None
           example_tracker) = false
  ∧ expenses (snd (update_expense Decimal.float_of_decimal 4 (Some "3"%string)
                     None None None example_tracker))
    = example_records
  ∧ fst (delete_expense 4 example_tracker) = false
  ∧ expenses (snd (delete_expense 4 example_tracker)) = example_records.
Proof.
  assert (4 < 1 ∨ Z.of_nat (length (expenses example_tracker)) < 4) as H
    by (right; simpl; lia).
  split; [exact H|].
  destruct (out_of_range_no_change Decimal.float_of_decimal 4 (Some "3"%string)
              None None None example_tracker H)
    as ((Hu & Hue & _) & (Hd & Hde & _)).
  split_and!; assumption.
Defined.

Lemma delete_expense_removes_witness :
  1 ≤ 2 ≤ Z.of_nat (length (expenses example_tracker))
  ∧ fst (delete_expense 2 example_tracker) = true
  ∧ expenses (snd (delete_expense 2 example_tracker))
    = [Expense 10%float "2024-01-05" EmptyString "Food";
       Expense 7%float "2024-02-01" EmptyString "Travel"].
Proof.
  assert (1 ≤ 2 ≤ Z.of_nat (length (expenses example_tracker))) as H
    by (simpl; lia).
  split; [exact H|].
  destruct (delete_expense_removes 2 example_tracker H)
    as (e & _ & Hr & _ & _ & Hes & _).
  split; [exact Hr|exact Hes].
Defined.

Lemma reachable_records_ok_witness :
  (file_ok Absent
   ∧ reachable Decimal.float_of_decimal Absent true
       (run Decimal.float_of_decimal (Add "12.50" "2024-1-5" "lunch" EmptyString)
          (init Absent true)))
  ∧ Forall (λ e, record_ok e
                 ∧ (PrimFloat.is_nan (amount e) = false →
                    PrimFloat.ltb PrimFloat.zero (amount e) = true))
      [Expense 12.5%float "2024-1-5" "lunch" "Uncategorized"].
Proof.
  assert (file_ok Absent) as Hf by exact I.
  assert (reachable Decimal.float_of_decimal Absent true
            (run Decimal.float_of_decimal
               (Add "12.50" "2024-1-5" "lunch" EmptyString) (init Absent true)))
    as Hr by (apply reachable_step, reachable_init).
  split; [by split|].
  exact (reachable_records_ok Decimal.float_of_decimal Absent true _ Hf Hr).
Defined.

(** * Further properties of the methods *)

(** ** Listing with filters *)

Section view_filters.
Import PyStr.

(** A record passes the filters that are given and not empty: its category
    equals the category filter up to case, its date equals the date filter. *)
Definition passes (filter_category filter_date : option string) (e : expense)
    : Prop :=
  match filter_category with
  | Some c => if truthy c then lower (category e) = lower c else True
  | None => True
  end
  ∧ match filter_date with
    | Some d => if truthy d then date e = d else True
    | None => True
    end.

Global Instance passes_dec fc fd e : Decision (passes fc fd e).
Proof.
  unfold passes. destruct fc as [c|], fd as [d|];
    repeat match goal with |- context [truthy ?s] => destruct (truthy s) end;
    apply _.
Defined.

Lemma filter_True (es : list expense) : filter (λ _, True) es = es.
Proof.
  induction es as [|e es IH]; [done|]. rewrite filter_cons.
  case_decide; [by rewrite IH|done].
Qed.

(** The two filter steps of [view_expenses] select the records that pass. *)
Lemma filtered_passes fc fd (es : list expense) :
  match fd with
  | Some d =>
      if truthy d
      then filter (λ e, date e = d)
             match fc with
             | Some c =>
                 if truthy c
                 then filter (λ e, lower (category e) = lower c) es
                 else es
             | None => es
             end
      else match fc with
           | Some c =>
               if truthy c
               then filter (λ e, lower (category e) = lower c) es
               else es
           | None => es
           end
  | None =>
      match fc with
      | Some c =>
          if truthy c
          then filter (λ e, lower (category e) = lower c) es
          else es
      | None => es
      end
  end
  = filter (passes fc fd) es.
Proof.
  cbv zeta.
  assert (∀ P `{∀ e, Decision (P e)},
            (∀ e, P e ↔ passes fc fd e) → filter P es = filter (passes fc fd) es)
    as Hiff by (intros P ? HP; by apply list_filter_iff).
  destruct fc as [c|], fd as [d|];
    try destruct (truthy c) eqn:Hc; try destruct (truthy d) eqn:Hd;
    rewrite ?list_filter_filter;
    try (apply Hiff; intros e; unfold passes; rewrite ?Hc, ?Hd; tauto);
    rewrite <- (filter_True es) at 1;
    apply Hiff; intros e; unfold passes; rewrite ?Hc, ?Hd; tauto.
Qed.

(** X1: what [view_expenses] prints.  On an empty list it prints that there
    are no expenses, whatever the filters.  Otherwise it prints the records
    that pass the filters, in the order of the list and numbered from 1 in
    the listing (not by their position in the list), or that nothing matches
    when none passes.  A record is printed exactly when it is in the list and
    passes. *)
Theorem view_expenses_prints (fc fd : option string) (t : tracker) :
  console (snd (view_expenses fc fd t))
  = console t
    ++ match expenses t with
       | [] => [NoExpensesFound]
       | es =>
           match filter (passes fc fd) es with
           | [] => [NoMatch]
           | shown => listing shown
           end
       end
  ∧ (∀ e, (∃ k, ExpenseLine k e ∈ console (snd (view_expenses fc fd t))
                ∧ ExpenseLine k e ∉ console t)
          → e ∈ expenses t ∧ passes fc fd e)
  ∧ (∀ e, e ∈ expenses t → passes fc fd e →
          ∃ k, ExpenseLine k e ∈ console (snd (view_expenses fc fd t))).
Proof.
  assert (console (snd (view_expenses fc fd t))
          = console t
            ++ match expenses t with
               | [] => [NoExpensesFound]
               | es =>
                   match filter (passes fc fd) es with
                   | [] => [NoMatch]
                   | shown => listing shown
                   end
               end) as Hout.
  { unfold view_expenses. rewrite bind_run.
    change (fst (get_expenses t)) with (expenses t).
    change (snd (get_expenses t)) with t.
    destruct (expenses t) as [|e0 es] eqn:Hes; [done|].
    cbv zeta. rewrite (filtered_passes fc fd (e0 :: es)).
    destruct (filter (passes fc fd) (e0 :: es)) as [|e1 shown]; [done|].
    unfold listing, bind, print, print_all. simpl. by rewrite <- app_assoc. }
  split; [exact Hout|]. rewrite Hout. split.
  - intros e (k & Hin & Hnew).
    apply elem_of_app in Hin as [Hin|Hin]; [done|].
    destruct (expenses t) as [|e0 es] eqn:Hes.
    { apply list_elem_of_singleton in Hin. discriminate Hin. }
    destruct (filter (passes fc fd) (e0 :: es)) as [|e1 shown] eqn:Hf.
    { apply list_elem_of_singleton in Hin. discriminate Hin. }
    unfold listing in Hin. apply elem_of_cons in Hin as [Hin|Hin]; [discriminate Hin|].
    apply list_elem_of_lookup in Hin as [i Hi].
    rewrite list_lookup_imap in Hi.
    destruct ((e1 :: shown) !! i) as [e'|] eqn:He'; [|discriminate Hi].
    injection Hi as _ <-.
    assert (e' ∈ filter (passes fc fd) (e0 :: es)) as Hin'.
    { rewrite Hf. by apply list_elem_of_lookup_2 in He'. }
    apply list_elem_of_filter in Hin'. tauto.
  - intros e He Hp.
    destruct (expenses t) as [|e0 es] eqn:Hes; [by apply not_elem_of_nil in He|].
    assert (e ∈ filter (passes fc fd) (e0 :: es)) as Hin
      by by apply list_elem_of_filter.
    destruct (filter (passes fc fd) (e0 :: es)) as [|e1 shown] eqn:Hf;
      [by apply not_elem_of_nil in Hin|].
    apply list_elem_of_lookup in Hin as [i Hi].
    exists (S i). apply elem_of_app. right. unfold listing. right.
    apply list_elem_of_lookup. exists i. by rewrite list_lookup_imap, Hi.
Qed.

End view_filters.

Section view_case.
Import PyStr.

Lemma code_ascii_of_nat n : (n < 256)%nat → code (ascii_of_nat n) = n.
Proof. intros H. unfold code. by apply nat_ascii_embedding. Qed.

Lemma lower_char_idem c : lower_char (lower_char c) = lower_char c.
Proof.
  unfold lower_char at 2 3.
  destruct (between 65 90 c || between 192 214 c || between 216 222 c) eqn:Hup.
  - unfold lower_char.
    assert (code c + 32 < 256)%nat as Hlt.
    { rewrite !orb_true_iff, !between_true in Hup. lia. }
    assert (between 65 90 (ascii_of_nat (code c + 32))
            || between 192 214 (ascii_of_nat (code c + 32))
            || between 216 222 (ascii_of_nat (code c + 32)) = false) as ->; [|done].
    rewrite !orb_false_iff, !between_false, code_ascii_of_nat by done.
    rewrite !orb_true_iff, !between_true in Hup. lia.
  - unfold lower_char. by rewrite Hup.
Qed.

Lemma lower_idem s : lower (lower s) = lower s.
Proof.
  induction s as [|c s IH]; [done|]. simpl. by rewrite lower_char_idem, IH.
Qed.

Lemma lower_truthy s : truthy (lower s) = truthy s.
Proof. by destruct s. Qed.

(** [view_expenses] as one print of the lines it decides on. *)
Lemma view_expenses_run fc fd t :
  view_expenses fc fd t
  = print_all match expenses t with
              | [] => [NoExpensesFound]
              | es =>
                  match filter (passes fc fd) es with
                  | [] => [NoMatch]
                  | shown => listing shown
                  end
              end t.
Proof.
  unfold view_expenses. rewrite bind_run.
  change (fst (get_expenses t)) with (expenses t).
  change (snd (get_expenses t)) with t.
  destruct (expenses t) as [|e0 es] eqn:Hes; [done|].
  cbv zeta. rewrite (filtered_passes fc fd (e0 :: es)).
  destruct (filter (passes fc fd) (e0 :: es)) as [|e1 shown]; [done|].
  unfold listing, bind, print, print_all. simpl. by rewrite <- app_assoc.
Qed.

(** X2: the category filter does not look at case.  Two filter texts that
    agree in lower case give the same listing, and so does a text and its
    lower case form. *)
Theorem view_expenses_case_insensitive (c1 c2 : string) (fd : option string)
    (t : tracker) :
  lower c1 = lower c2 →
  view_expenses (Some c1) fd t = view_expenses (Some c2) fd t
  ∧ view_expenses (Some (lower c1)) fd t = view_expenses (Some c1) fd t.
Proof.
  assert (∀ a b, lower a = lower b →
                 view_expenses (Some a) fd t = view_expenses (Some b) fd t) as Hsame.
  { intros a b Hab.
    assert (truthy a = truthy b) as Ht
      by (rewrite <- (lower_truthy a), <- (lower_truthy b); by rewrite Hab).
    rewrite !view_expenses_run.
    destruct (expenses t) as [|e es]; [done|].
    assert (filter (passes (Some a) fd) (e :: es)
            = filter (passes (Some b) fd) (e :: es)) as ->; [|done].
    apply list_filter_iff. intros x. unfold passes. by rewrite Ht, Hab. }
  intros H. split; [by apply Hsame|].
  apply Hsame, lower_idem.
Qed.

End view_case.

Lemma view_expenses_case_insensitive_witness :
  PyStr.lower "FOOD" = PyStr.lower "Food"
  ∧ view_expenses (Some "FOOD"%string) None example_tracker
    = view_expenses (Some "Food"%string) None example_tracker.
Proof.
  assert (PyStr.lower "FOOD" = PyStr.lower "Food") as H by reflexivity.
  split; [exact H|].
  exact (proj1 (view_expenses_case_insensitive "FOOD" "Food" None example_tracker H)).
Defined.

(** ** What every method leaves alone *)

Section growth.
Import PyStr.
Variable float_of_str : string → option float.

(** A computation that keeps the flag of the file and only adds to what is
    on the console. *)
Definition grows {A : Type} (m : M A) : Prop :=
  ∀ t, writable (snd (m t)) = writable t
       ∧ ∃ out, console (snd (m t)) = console t ++ out.

Lemma grows_ret {A : Type} (x : A) : grows (ret x).
Proof. intros t. split; [done|]. exists []. simpl. by rewrite app_nil_r. Qed.

Lemma grows_bind {A B : Type} (m : M A) (k : A → M B) :
  grows m → (∀ x, grows (k x)) → grows (bind m k).
Proof.
  intros Hm Hk t. rewrite bind_run.
  destruct (Hm t) as (W1 & o1 & C1).
  destruct (Hk (fst (m t)) (snd (m t))) as (W2 & o2 & C2).
  split; [congruence|]. exists (o1 ++ o2). by rewrite C2, C1, app_assoc.
Qed.

Lemma grows_get_expenses : grows get_expenses.
Proof. intros t. split; [done|]. exists []. simpl. by rewrite app_nil_r. Qed.

Lemma grows_set_expenses es : grows (set_expenses es).
Proof. intros t. split; [done|]. exists []. simpl. by rewrite app_nil_r. Qed.

Lemma grows_print m : grows (print m).
Proof. intros t. split; [done|]. by exists [m]. Qed.

Lemma grows_print_all ms : grows (print_all ms).
Proof. intros t. split; [done|]. by exists ms. Qed.

Lemma grows_save_data : grows save_data.
Proof.
  intros t. unfold save_data. destruct (writable t) eqn:W; simpl.
  - split; [done|]. by exists [Saved (length (expenses t))].
  - split; [done|]. by exists [SaveError].
Qed.

Lemma grows_load_data : grows load_data.
Proof.
  intros t. unfold load_data. destruct (data_file t); simpl.
  - split; [done|]. exists []. by rewrite app_nil_r.
  - split; [done|]. by exists [LoadError].
  - split; [done|]. by eexists [_].
Qed.

Create HintDb grows discriminated.
Hint Resolve grows_ret grows_get_expenses grows_set_expenses grows_print
  grows_print_all grows_save_data grows_load_data : grows.

Ltac grows_step :=
  repeat first
    [ apply grows_bind; [|intros ?]
    | match goal with
      | |- grows (match ?x with _ => _ end) => destruct x
      | |- grows (if ?b then _ else _) => destruct b
      end
    | solve [auto with grows] ].

Lemma grows_validate_amount a : grows (validate_amount float_of_str a).
Proof. unfold validate_amount. grows_step. Qed.

Lemma grows_validate_date d : grows (validate_date d).
Proof. unfold validate_date. grows_step. Qed.

Lemma grows_assign i f : grows (assign i f).
Proof. unfold assign. grows_step. Qed.

Hint Resolve grows_validate_amount grows_validate_date grows_assign : grows.

Lemma grows_add_expense a d n c : grows (add_expense float_of_str a d n c).
Proof. unfold add_expense. grows_step. Qed.

Lemma grows_view_expenses fc fd : grows (view_expenses fc fd).
Proof. intros t. rewrite view_expenses_run. apply grows_print_all. Qed.

Lemma grows_update_expense i a d n c : grows (update_expense float_of_str i a d n c).
Proof. unfold update_expense. grows_step. Qed.

Lemma grows_delete_expense i : grows (delete_expense i).
Proof. unfold delete_expense. grows_step. Qed.

Lemma grows_show_summary : grows show_summary.
Proof. unfold show_summary. grows_step. Qed.

Lemma grows_run c t :
  writable (run float_of_str c t) = writable t
  ∧ ∃ out, console (run float_of_str c t) = console t ++ out.
Proof.
  destruct c; simpl.
  - apply grows_add_expense.
  - apply grows_update_expense.
  - apply grows_delete_expense.
  - apply grows_view_expenses.
  - apply grows_show_summary.
Qed.

End growth.

(** ** The file follows the list *)

Section restart.
Import PyStr.
Variable float_of_str : string → option float.

(** What a run of a method does to list and file: nothing, or a change of
    the list followed by [save_data]. *)
Definition untouched_or_saved (t t' : tracker) : Prop :=
  same_store t t' ∨ persisted t t'.

(** Starting the program again on the file of [t] gives the list of [t]. *)
Definition synced (t : tracker) : Prop :=
  expenses (init (data_file t) (writable t)) = expenses t.

Lemma add_expense_effect a d n c t :
  untouched_or_saved t (snd (add_expense float_of_str a d n c t)).
Proof.
  unfold add_expense. rewrite bind_run.
  pose proof (validate_amount_store float_of_str a t) as S1.
  destruct (validate_amount float_of_str a t) as [va t1]. simpl in *.
  rewrite bind_run.
  pose proof (validate_date_store d t1) as S2.
  destruct (validate_date d t1) as [vd t2]. simpl in *.
  assert (same_store t t2) as (E & F & W).
  { destruct S1 as (? & ? & ?), S2 as (? & ? & ?). repeat split; congruence. }
  destruct va as [v|]; [|by left]. destruct vd as [v'|]; [|by left].
  right. unfold persisted, bind, get_expenses, set_expenses, save_data, print, ret.
  simpl. rewrite <- W. destruct (writable t2); simpl; congruence.
Qed.

Lemma update_expense_effect i a d n c t :
  untouched_or_saved t (snd (update_expense float_of_str i a d n c t)).
Proof.
  destruct (index_ok i (expenses t)) eqn:Hi.
  - right. by destruct (update_expense_in_range float_of_str i a d n c t Hi) as (_ & _ & ?).
  - left. by rewrite (update_expense_out_of_range float_of_str i a d n c t Hi).
Qed.

Lemma delete_expense_effect i t :
  untouched_or_saved t (snd (delete_expense i t)).
Proof.
  destruct (index_ok i (expenses t)) eqn:Hi.
  - right. pose proof Hi as Hr%index_ok_true.
    pose proof (index_lookup i (expenses t) Hr) as [e He].
    by destruct (delete_expense_in_range i t e Hi He) as (_ & _ & _ & ?).
  - left. by rewrite (delete_expense_out_of_range i t Hi).
Qed.

Lemma run_effect c t : untouched_or_saved t (run float_of_str c t).
Proof.
  destruct c; simpl.
  - apply add_expense_effect.
  - apply update_expense_effect.
  - apply delete_expense_effect.
  - left. apply view_expenses_store.
  - left. apply show_summary_store.
Qed.

Lemma init_synced file w : synced (init file w) ∧ writable (init file w) = w.
Proof.
  unfold synced. rewrite !init_expenses.
  unfold init, load_data, bind. simpl. destruct file; simpl; by rewrite ?init_expenses.
Qed.

Lemma run_synced c t :
  writable t = true → synced t → synced (run float_of_str c t).
Proof.
  unfold synced. intros W Hs.
  destruct (grows_run float_of_str c t) as [W' _].
  rewrite W', W, !init_expenses in *.
  destruct (run_effect c t) as [(E & F & _)|Hp].
  - by rewrite F, E.
  - unfold persisted in Hp. rewrite W in Hp. by rewrite Hp.
Qed.

(** X3: while the file can be written, the file follows the list.  In every
    state of a session, starting the program again on the file as it is gives
    exactly the list the session holds: no accepted change is lost, and no
    refused command leaves a trace in the file. *)
Theorem restart_gives_same_list (file : file_content) (t : tracker) :
  reachable float_of_str file true t →
  expenses (init (data_file t) true) = expenses t ∧ writable t = true.
Proof.
  intros Hr.
  assert (synced t ∧ writable t = true) as [Hs W].
  { induction Hr as [|c t _ [IH W]].
    - apply init_synced.
    - split; [by apply run_synced|].
      destruct (grows_run float_of_str c t) as [-> _]. exact W. }
  split; [|exact W]. unfold synced in Hs. by rewrite W in Hs.
Qed.

End restart.

Lemma restart_gives_same_list_witness :
  reachable Decimal.float_of_decimal Unreadable true
    (run Decimal.float_of_decimal (Delete 1)
       (run Decimal.float_of_decimal (Add "4" "2024-03-01" "bus" "Travel")
          (run Decimal.float_of_decimal (Add "9.5" "2024-03-02" "soup" "Food")
             (init Unreadable true))))
  ∧ expenses
      (init (data_file
               (run Decimal.float_of_decimal (Delete 1)
                  (run Decimal.float_of_decimal (Add "4" "2024-03-01" "bus" "Travel")
                     (run Decimal.float_of_decimal
                        (Add "9.5" "2024-03-02" "soup" "Food")
                        (init Unreadable true))))) true)
    = [Expense 4%float "2024-03-01" "bus" "Travel"].
Proof.
  assert (reachable Decimal.float_of_decimal Unreadable true
            (run Decimal.float_of_decimal (Delete 1)
               (run Decimal.float_of_decimal (Add "4" "2024-03-01" "bus" "Travel")
                  (run Decimal.float_of_decimal
                     (Add "9.5" "2024-03-02" "soup" "Food")
                     (init Unreadable true))))) as Hr
    by (do 3 apply reachable_step; apply reachable_init).
  split; [exact Hr|].
  exact (proj1 (restart_gives_same_list Decimal.float_of_decimal Unreadable _ Hr)).
Defined.

(** ** How the methods compose *)

Section composition.
Import PyStr.
Variable float_of_str : string → option float.

Lemma add_expense_accepts amount date note category a t :
  float_of_str amount = Some a → PrimFloat.leb a PrimFloat.zero = false →
  DateText.lenient_date date →
  fst (add_expense float_of_str amount date note category t) = true.
Proof.
  intros Hp Hle Hl. unfold add_expense. rewrite bind_run.
  rewrite (validate_amount_accepts float_of_str amount a t Hp Hle). simpl.
  rewrite bind_run, (validate_date_accepts date t Hl). simpl.
  unfold bind, get_expenses, set_expenses, save_data, print, ret. simpl.
  by destruct (writable t).
Qed.

(** X4: deleting the position just past the old end undoes an add.  Whatever
    the inputs of [add_expense], accepted or refused, a following
    [delete_expense] of index [len + 1], with [len] the length before the
    add, leaves the list exactly as it was before the add. *)
Theorem add_then_delete_last (amount date note category : string) (t : tracker) :
  let added := snd (add_expense float_of_str amount date note category t) in
  let index := Z.of_nat (length (expenses t)) + 1 in
  expenses (snd (delete_expense index added)) = expenses t
  ∧ fst (delete_expense index added)
    = fst (add_expense float_of_str amount date note category t).
Proof.
  intros added index.
  destruct (add_expense_cases float_of_str amount date note category t)
    as [[Hr Hes]|(a & Hp & Hle & Hl & Hes)]; fold added in Hes.
  - assert (index_ok index (expenses added) = false) as Hi.
    { apply index_ok_false. rewrite Hes. subst index. lia. }
    rewrite (delete_expense_out_of_range index added Hi). simpl.
    by rewrite Hr.
  - assert (index_ok index (expenses added) = true) as Hi.
    { apply index_ok_true. rewrite Hes, length_app. subst index. simpl. lia. }
    assert (Z.to_nat (index - 1) = length (expenses t)) as Hn by (subst index; lia).
    assert (expenses added !! Z.to_nat (index - 1)
            = Some (Expense a date (strip note)
                      (or_else (strip category) "Uncategorized"))) as He.
    { rewrite Hn, Hes, lookup_app_r by lia. by rewrite Nat.sub_diag. }
    destruct (delete_expense_in_range index added _ Hi He) as (-> & -> & _).
    split.
    + rewrite Hn, Hes. by rewrite delete_middle, app_nil_r.
    + symmetry. by apply (add_expense_accepts amount date note category a).
Qed.

Lemma updated_idem a d n c e :
  updated float_of_str a d n c (updated float_of_str a d n c e)
  = updated float_of_str a d n c e.
Proof.
  unfold updated, apply_category, apply_note, apply_date, apply_amount.
  destruct a as [a|], d as [d|], n as [n|], c as [c|];
    repeat match goal with
      | |- context [truthy ?s] => destruct (truthy s)
      | |- context [float_of_str ?s] => destruct (float_of_str s)
      | |- context [PrimFloat.leb ?v PrimFloat.zero] =>
          destruct (PrimFloat.leb v PrimFloat.zero)
      | |- context [Strptime.strptime ?s] => destruct (Strptime.strptime s)
      end; done.
Qed.

(** X5: an update done twice is an update done once.  Running
    [update_expense] again with the same arguments, whether the index is in
    range or not, returns the same result and leaves the same list and the
    same file as the first run. *)
Theorem update_expense_twice (index : Z)
    (new_amount new_date new_note new_category : option string) (t : tracker) :
  let once :=
    update_expense float_of_str index new_amount new_date new_note new_category t in
  let twice :=
    update_expense float_of_str index new_amount new_date new_note new_category
      (snd once) in
  fst twice = fst once
  ∧ expenses (snd twice) = expenses (snd once)
  ∧ data_file (snd twice) = data_file (snd once).
Proof.
  intros once twice.
  destruct (index_ok index (expenses t)) eqn:Hi.
  - destruct (update_expense_in_range float_of_str index new_amount new_date
                new_note new_category t Hi) as (Hr & Hes & Hp).
    fold once in Hr, Hes, Hp.
    assert (index_ok index (expenses (snd once)) = true) as Hi'.
    { apply index_ok_true. rewrite Hes, length_alter. by apply index_ok_true. }
    destruct (update_expense_in_range float_of_str index new_amount new_date
                new_note new_category (snd once) Hi') as (Hr' & Hes' & Hp').
    fold twice in Hr', Hes', Hp'.
    assert (expenses (snd twice) = expenses (snd once)) as Hsame.
    { rewrite Hes', Hes, list_alter_alter_eq. apply list_alter_ext; [|done].
      intros e _. apply updated_idem. }
    split; [congruence|]. split; [exact Hsame|].
    unfold persisted in Hp, Hp'.
    destruct (grows_update_expense float_of_str index new_amount new_date
                new_note new_category t) as [W _]. fold once in W.
    rewrite Hp', Hp, W. destruct (writable t); congruence.
  - assert (once = (false, snd (print InvalidIndex t))) as Ho
      by (by apply update_expense_out_of_range).
    assert (index_ok index (expenses (snd once)) = false) as Hi'
      by by rewrite Ho.
    assert (twice = (false, snd (print InvalidIndex (snd once)))) as Ht
      by (by apply update_expense_out_of_range).
    rewrite Ht, Ho. done.
Qed.

End composition.

(** ** Months of strict dates *)

Section month_keys.
Import PyStr DateText.

(** The first seven characters of a strict date are its year and month
    fields with the dash between them. *)
Lemma strict_month_key s y m d :
  date_text true s y m d →
  ∃ c1 c2 c3 c4 m1 m2,
    slice_to 7 s
    = String c1 (String c2 (String c3 (String c4
        (String "-" (String m1 (String m2 EmptyString))))))
    ∧ Forall (λ c, 48 ≤ Z.of_nat (code c) ≤ 57) [c1; c2; c3; c4; m1; m2]
    ∧ y = 1000 * (Z.of_nat (code c1) - 48) + 100 * (Z.of_nat (code c2) - 48)
          + 10 * (Z.of_nat (code c3) - 48) + (Z.of_nat (code c4) - 48)
    ∧ m = 10 * (Z.of_nat (code m1) - 48) + (Z.of_nat (code m2) - 48).
Proof.
  intros (Y & M & D & -> & (HY & HlenY & ->) & (HM & HlenM & ->) & _).
  destruct Y as [|c1 [|c2 [|c3 [|c4 [|c5 Y]]]]]; simpl in HlenY; try lia.
  destruct M as [|m1 [|m2 [|m3 M]]]; simpl in HlenM; try lia.
  exists c1, c2, c3, c4, m1, m2.
  split; [by cbv [String.append]|].
  cbn in HY, HM. tests_to_arith.
  split; [repeat constructor; lia|].
  unfold number. cbn. lia.
Qed.

(** X6: for dates in strict [YYYY-MM-DD] form the month of the summary is
    the calendar month.  Two such dates get the same month key, the first
    seven characters, exactly when they have the same year and the same
    month. *)
Theorem month_key_of_strict_dates (e1 e2 : expense) (y1 m1 d1 y2 m2 d2 : Z) :
  date_text true (date e1) y1 m1 d1 →
  date_text true (date e2) y2 m2 d2 →
  (slice_to 7 (date e1) = slice_to 7 (date e2) ↔ y1 = y2 ∧ m1 = m2)
  ∧ String.length (slice_to 7 (date e1)) = 7%nat.
Proof.
  intros (a1 & a2 & a3 & a4 & a5 & a6 & -> & Ha & -> & ->)%strict_month_key
         (b1 & b2 & b3 & b4 & b5 & b6 & -> & Hb & -> & ->)%strict_month_key.
  rewrite !Forall_cons in Ha, Hb.
  destruct Ha as (? & ? & ? & ? & ? & ? & _), Hb as (? & ? & ? & ? & ? & ? & _).
  split; [|done]. split.
  - intros [= -> -> -> -> -> ->]. done.
  - intros [Hy Hm].
    assert (code a1 = code b1 ∧ code a2 = code b2 ∧ code a3 = code b3
            ∧ code a4 = code b4 ∧ code a5 = code b5 ∧ code a6 = code b6)
      as (E1 & E2 & E3 & E4 & E5 & E6) by lia.
    apply code_inj in E1, E2, E3, E4, E5, E6. by subst.
Qed.

End month_keys.

Lemma month_key_of_strict_dates_witness :
  (DateText.date_text true "2024-01-05" 2024 1 5
   ∧ DateText.date_text true "2024-01-20" 2024 1 20)
  ∧ PyStr.slice_to 7 "2024-01-05" = PyStr.slice_to 7 "2024-01-20".
Proof.
  assert (DateText.date_text true "2024-01-05" 2024 1 5) as H1.
  { exists "2024"%string, "01"%string, "05"%string.
    split; [reflexivity|]. split; [|split; [|left]];
      (split; [reflexivity|split; [simpl; lia|reflexivity]]). }
  assert (DateText.date_text true "2024-01-20" 2024 1 20) as H2.
  { exists "2024"%string, "01"%string, "20"%string.
    split; [reflexivity|]. split; [|split; [|left]];
      (split; [reflexivity|split; [simpl; lia|reflexivity]]). }
  split; [by split|].
  apply (proj1 (month_key_of_strict_dates
                  (Expense 10%float "2024-01-05" EmptyString "Food")
                  (Expense 5%float "2024-01-20" EmptyString "Food")
                  2024 1 5 2024 1 20 H1 H2)).
  split; reflexivity.
Defined.

(** ** Notes and categories are trimmed *)

Section trimming.
Import PyStr.
Variable float_of_str : string → option float.

Definition head_char (s : string) : option ascii :=
  match s with
  | EmptyString => None
  | String c _ => Some c
  end.

Fixpoint last_char (s : string) : option ascii :=
  match s with
  | EmptyString => None
  | String c EmptyString => Some c
  | String _ s' => last_char s'
  end.

(** No whitespace at either end. *)
Definition trimmed (s : string) : Prop :=
  (∀ c, head_char s = Some c → isspace c = false)
  ∧ (∀ c, last_char s = Some c → isspace c = false).

Lemma lstrip_head s c : head_char (lstrip s) = Some c → isspace c = false.
Proof.
  induction s as [|c' s IH]; simpl; [done|].
  destruct (isspace c') eqn:Hc'; [done|]. simpl. by intros [= <-].
Qed.

Lemma rstrip_head s c :
  head_char s = Some c → isspace c = false → head_char (rstrip s) = Some c.
Proof.
  destruct s as [|c' s]; simpl; [done|]. intros [= ->] Hc.
  destruct (rstrip s); [by rewrite Hc|done].
Qed.

Lemma rstrip_head_inv s c : head_char (rstrip s) = Some c → head_char s = Some c.
Proof.
  destruct s as [|c' s]; simpl; [done|].
  destruct (rstrip s); [by destruct (isspace c')|done].
Qed.

Lemma rstrip_last s c : last_char (rstrip s) = Some c → isspace c = false.
Proof.
  induction s as [|c' s IH]; simpl; [done|].
  destruct (rstrip s) as [|c'' r] eqn:Hr.
  - destruct (isspace c') eqn:Hc'; simpl; [done|]. by intros [= <-].
  - simpl. exact IH.
Qed.

Lemma strip_trimmed s : trimmed (strip s).
Proof.
  unfold strip. split.
  - intros c Hc. apply rstrip_head_inv in Hc. by apply lstrip_head in Hc.
  - apply rstrip_last.
Qed.

Lemma category_trimmed c : trimmed (or_else (strip c) "Uncategorized").
Proof.
  unfold or_else. destruct (truthy (strip c)); [apply strip_trimmed|].
  split; intros c' [= <-]; reflexivity.
Qed.

(** X7: what is stored is trimmed.  A record that [add_expense] appends has
    a note and a category without whitespace at either end, and the category
    is not empty; the same holds for the note and the category that
    [update_expense] writes into its target when they are supplied. *)
Theorem stored_text_trimmed (amount_text date_text note_text category_text : string)
    (index : Z) (new_amount new_date : option string) (t : tracker) :
  (fst (add_expense float_of_str amount_text date_text note_text category_text t)
   = true →
   ∃ e, expenses (snd (add_expense float_of_str amount_text date_text note_text
                         category_text t))
        = expenses t ++ [e]
        ∧ trimmed (note e) ∧ trimmed (category e)
        ∧ category e ≠ EmptyString)
  ∧ (1 ≤ index ≤ Z.of_nat (length (expenses t)) →
     ∃ e, expenses (snd (update_expense float_of_str index new_amount new_date
                           (Some note_text) (Some category_text) t))
            !! Z.to_nat (index - 1) = Some e
          ∧ trimmed (note e) ∧ trimmed (category e)
          ∧ category e ≠ EmptyString).
Proof.
  split.
  - intros Hr.
    destruct (add_expense_cases float_of_str amount_text date_text note_text
                category_text t) as [[Hf _]|(a & _ & _ & _ & Hes)];
      [congruence|].
    eexists. split; [exact Hes|]. simpl.
    split; [apply strip_trimmed|]. split; [apply category_trimmed|].
    apply default_category_nonempty.
  - intros Hrange.
    destruct (update_expense_in_range float_of_str index new_amount new_date
                (Some note_text) (Some category_text) t) as (_ & -> & _);
      [by apply index_ok_true|].
    pose proof (index_lookup index (expenses t) Hrange) as [e He].
    rewrite list_lookup_alter_eq, He. eexists. split; [reflexivity|].
    unfold updated. simpl.
    split; [apply strip_trimmed|]. split; [apply category_trimmed|].
    apply default_category_nonempty.
Qed.

End trimming.

(** * The prompt loop of [main] *)

(** The questions [main] asks with [input]. *)
Inductive prompt : Type :=
| AskCommand
| AskAmount
| AskDate
| AskNote
| AskCategory
| AskFilterBy
| AskFilterCategory
| AskFilterDate
| AskIndex
| AskNewAmount
| AskNewDate
| AskNewNote
| AskNewCategory.

(** What appears on the screen: the lines of [main] itself, its questions,
    and the lines the tracker prints. *)
Inductive shell_line : Type :=
| Banner
| CommandList
| Asked (p : prompt)
| LeaveBlankHint
| IndexNotNumber
| InvalidFilterType
| UnknownCommand
| Said (m : message).

(** The program at the prompt: the tracker, the lines still to be read from
    the standard input, and the screen. *)
Record shell : Type := Shell {
  app : tracker;
  stdin : list string;
  screen : list shell_line
}.

(** A step of [main]; [None] is the [EOFError] of an [input] at the end of
    the input, which nothing in [main] catches. *)
Definition Sh (A : Type) : Type := shell → option A * shell.

Definition sret {A : Type} (x : A) : Sh A := λ s, (Some x, s).

Definition sbind {A B : Type} (m : Sh A) (f : A → Sh B) : Sh B :=
  λ s, match m s with
       | (Some x, s') => f x s'
       | (None, s') => (None, s')
       end.

Notation "x <-- m ;; k" := (sbind m (λ x, k))
  (at level 100, m at next level, k at level 200, right associativity).

(** [input(question)] *)
Definition input (p : prompt) : Sh string :=
  λ s, match stdin s with
       | [] => (None, Shell (app s) [] (screen s ++ [Asked p]))
       | line :: rest => (Some line, Shell (app s) rest (screen s ++ [Asked p]))
       end.

(** [print(...)] in [main] *)
Definition say (l : shell_line) : Sh unit :=
  λ s, (Some tt, Shell (app s) (stdin s) (screen s ++ [l])).

(** A call of a method of the tracker: what it adds to the console shows on
    the screen. *)
Definition call {A : Type} (m : M A) : Sh A :=
  λ s, let (x, t') := m (app s) in
       (Some x,
        Shell t' (stdin s)
          (screen s ++ (Said <$> drop (length (console (app s))) (console t')))).

(** [text or None] *)
Definition or_none (text : string) : option string :=
  if PyStr.truthy text then Some text else None.

(** How a run of [main] ends: with the command [quit], or with the
    [EOFError] of an [input] that finds the input at its end. *)
Inductive ending : Type :=
| Quit
| EndOfInput.

Section main.
Import PyStr.

(** [float(text)] and [int(text)]; [None] is [ValueError]. *)
Variable float_of_str : string → option float.
Variable int_of_str : string → option Z.

(** One turn of the [while True] loop; [false] is the [break]. *)
Definition turn : Sh bool :=
  line <-- input AskCommand ;;
  let cmd := lower (strip line) in
  if String.eqb cmd "quit" then sret false
  else
    _ <-- (if String.eqb cmd "add" then
             amount <-- input AskAmount ;;
             date <-- input AskDate ;;
             note <-- input AskNote ;;
             category <-- input AskCategory ;;
             _ <-- call (add_expense float_of_str amount date note category) ;;
             sret tt
           else if String.eqb cmd "view" then
             call (view_expenses None None)
           else if String.eqb cmd "summary" then
             call show_summary
           else if String.eqb cmd "filter" then
             answer <-- input AskFilterBy ;;
             let filter_type := lower (strip answer) in
             if String.eqb filter_type "category" then
               cat <-- input AskFilterCategory ;;
               call (view_expenses (Some cat) None)
             else if String.eqb filter_type "date" then
               date <-- input AskFilterDate ;;
               call (view_expenses None (Some date))
             else say InvalidFilterType
           else if String.eqb cmd "update" then
             answer <-- input AskIndex ;;
             match int_of_str answer with
             | Some index =>
                 _ <-- say LeaveBlankHint ;;
                 amount <-- input AskNewAmount ;;
                 date <-- input AskNewDate ;;
                 note <-- input AskNewNote ;;
                 category <-- input AskNewCategory ;;
                 _ <-- call (update_expense float_of_str index (or_none amount)
                               (or_none date) (or_none note) (or_none category)) ;;
                 sret tt
             | None => say IndexNotNumber
             end
           else if String.eqb cmd "delete" then
             answer <-- input AskIndex ;;
             match int_of_str answer with
             | Some index => _ <-- call (delete_expense index) ;; sret tt
             | None => say IndexNotNumber
             end
           else say UnknownCommand) ;;
    sret true.

(** The loop, with a bound on the number of turns: [None] when the bound is
    reached before the loop ends. *)
Fixpoint turns (bound : nat) (s : shell) : option (ending * shell) :=
  match bound with
  | O => None
  | S bound' =>
      match turn s with
      | (None, s') => Some (EndOfInput, s')
      | (Some false, s') => Some (Quit, s')
      | (Some true, s') => turns bound' s'
      end
  end.

(** The program before its first question. *)
Definition start (file : file_content) (can_write : bool) (lines : list string)
    : shell :=
  let tracker := init file can_write in
  Shell tracker lines ((Said <$> console tracker) ++ [Banner; CommandList]).

(** [main()] on a data file and the lines of the standard input; every turn
    reads a line, so one turn more than there are lines is enough. *)
Definition main (file : file_content) (can_write : bool) (lines : list string)
    : option (ending * shell) :=
  turns (S (length lines)) (start file can_write lines).

End main.

(** ** Facts about the steps of [main] *)

(** A relation between the program before and after a step that every
    question and every line of [main] respects: it holds between a state and
    itself, it composes, and it holds when the tracker is kept, nothing is put
    back on the input, and only the screen changes. *)
Class StepRel (R : relation shell) : Prop := {
  step_rel_preorder :: PreOrder R;
  step_rel_io s rest scr :
    (length rest ≤ length (stdin s))%nat → R s (Shell (app s) rest scr)
}.

(** Every run of [m] is within [R]. *)
Definition follows {A : Type} (R : relation shell) (m : Sh A) : Prop :=
  ∀ s, R s (snd (m s)).

Section follows_facts.
Context (R : relation shell) `{!StepRel R}.

Lemma follows_sret {A : Type} (x : A) : follows R (sret x).
Proof. intros s. simpl. reflexivity. Qed.

Lemma follows_sbind {A B : Type} (m : Sh A) (k : A → Sh B) :
  follows R m → (∀ x, follows R (k x)) → follows R (sbind m k).
Proof.
  intros Hm Hk s. unfold sbind. specialize (Hm s).
  destruct (m s) as [[x|] s1]; simpl in *; [|done].
  etrans; [exact Hm|apply Hk].
Qed.

Lemma follows_input p : follows R (input p).
Proof.
  intros s. unfold input. destruct (stdin s) as [|line rest] eqn:Hin; simpl.
  - apply step_rel_io. simpl. lia.
  - apply step_rel_io. rewrite Hin. simpl. lia.
Qed.

Lemma follows_say l : follows R (say l).
Proof. intros s. simpl. by apply step_rel_io. Qed.

Lemma follows_call {A : Type} (m : M A) :
  (∀ s scr, R s (Shell (snd (m (app s))) (stdin s) scr)) → follows R (call m).
Proof. intros H s. unfold call. destruct (m (app s)) eqn:Hm. simpl.
  specialize (H s). rewrite Hm in H. apply H. Qed.

End follows_facts.

(** Decomposes a step of [main] along its binds and branches; what is left
    are the calls of the tracker. *)
Ltac follows_step :=
  repeat match goal with
    | |- follows _ (sret _) => solve [apply follows_sret; apply _]
    | |- follows _ (input _) => solve [apply follows_input; apply _]
    | |- follows _ (say _) => solve [apply follows_say; apply _]
    | |- follows _ (sbind _ _) => apply follows_sbind; [apply _| |intros ?]
    | |- follows _ (if ?b then _ else _) => destruct b eqn:?
    | |- follows _ (match ?x with _ => _ end) => destruct x eqn:?
    | |- follows _ (let _ := _ in _) => cbv zeta
    end.

(** The input never grows. *)
Definition no_more_input (s s' : shell) : Prop :=
  (length (stdin s') ≤ length (stdin s))%nat.

Global Instance no_more_input_rel : StepRel no_more_input.
Proof.
  split; [split|].
  - intros s. unfold no_more_input. lia.
  - intros s1 s2 s3. unfold no_more_input. lia.
  - intros s rest scr H. exact H.
Qed.

(** A property of the tracker that is kept. *)
Definition keeps (P : tracker → Prop) (s s' : shell) : Prop :=
  P (app s) → P (app s').

Global Instance keeps_rel P : StepRel (keeps P).
Proof.
  split; [split|].
  - intros s H. exact H.
  - intros s1 s2 s3 H12 H23 H. by apply H23, H12.
  - intros s rest scr _ H. exact H.
Qed.

(** List and file of the tracker are kept. *)
Definition store_kept (s s' : shell) : Prop := same_store (app s) (app s').

Global Instance store_kept_rel : StepRel store_kept.
Proof.
  split; [split|].
  - intros s. by unfold store_kept, same_store.
  - intros s1 s2 s3 (E1 & F1 & W1) (E2 & F2 & W2). repeat split; congruence.
  - intros s rest scr _. by unfold store_kept, same_store.
Qed.

Lemma sbind_input_follows {B : Type} (R : relation shell) `{!StepRel R}
    p (k : string → Sh B) s line rest :
  stdin s = line :: rest →
  follows R (k line) → R s (snd (sbind (input p) k s)).
Proof.
  intros Hin Hk. unfold sbind, input. rewrite Hin.
  etrans; [|apply Hk]. apply step_rel_io. rewrite Hin. simpl. lia.
Qed.

Section turn_facts.
Import PyStr.
Variable float_of_str : string → option float.
Variable int_of_str : string → option Z.




End turn_facts.

Section atomic_facts.

(** A step that keeps the tracker as it is. *)
Definition quiet {A : Type} (m : Sh A) : Prop := ∀ s, app (snd (m s)) = app s.

(** A step that cannot run out of input. *)
Definition total {A : Type} (m : Sh A) : Prop := ∀ s, fst (m s) ≠ None.

(** A step that, when it runs out of input, has read all of it and has not
    touched the tracker. *)
Definition atomic {A : Type} (m : Sh A) : Prop :=
  ∀ s, fst (m s) = None → app (snd (m s)) = app s ∧ stdin (snd (m s)) = [].

Lemma quiet_input p : quiet (input p).
Proof. intros s. unfold input. by destruct (stdin s). Qed.

Lemma quiet_say l : quiet (say l).
Proof. by intros s. Qed.

Lemma atomic_input p : atomic (input p).
Proof. intros s. unfold input. by destruct (stdin s). Qed.

Lemma total_sret {A : Type} (x : A) : total (sret x).
Proof. by intros s. Qed.

Lemma total_say l : total (say l).
Proof. by intros s. Qed.

Lemma total_call {A : Type} (m : M A) : total (call m).
Proof. intros s. unfold call. by destruct (m (app s)). Qed.

Lemma total_sbind {A B : Type} (m : Sh A) (k : A → Sh B) :
  total m → (∀ x, total (k x)) → total (sbind m k).
Proof.
  intros Hm Hk s. unfold sbind. specialize (Hm s).
  destruct (m s) as [[x|] s1]; simpl in *; [apply Hk|done].
Qed.

Lemma atomic_total {A : Type} (m : Sh A) : total m → atomic m.
Proof. intros Hm s Hs. by apply Hm in Hs. Qed.

Lemma atomic_sbind_quiet {A B : Type} (m : Sh A) (k : A → Sh B) :
  quiet m → atomic m → (∀ x, atomic (k x)) → atomic (sbind m k).
Proof.
  intros Hq Hm Hk s. unfold sbind.
  specialize (Hq s). specialize (Hm s).
  destruct (m s) as [[x|] s1]; simpl in *; [|intros _; by apply Hm].
  intros Hs. destruct (Hk x s1 Hs) as [Ha Hi]. split; congruence.
Qed.

Lemma atomic_sbind_total {A B : Type} (m : Sh A) (k : A → Sh B) :
  atomic m → (∀ x, total (k x)) → atomic (sbind m k).
Proof.
  intros Hm Hk s. unfold sbind. specialize (Hm s).
  destruct (m s) as [[x|] s1]; simpl in *; [|intros _; by apply Hm].
  intros Hs. by apply Hk in Hs.
Qed.

End atomic_facts.

Ltac total_step :=
  repeat match goal with
    | |- total (sret _) => apply total_sret
    | |- total (say _) => apply total_say
    | |- total (call _) => apply total_call
    | |- total (sbind _ _) => apply total_sbind; [|intros ?]
    end.

Ltac atomic_step :=
  repeat match goal with
    | |- atomic (input _) => apply atomic_input
    | |- atomic (sbind (input _) _) =>
        apply atomic_sbind_quiet; [apply quiet_input|apply atomic_input|intros ?]
    | |- atomic (sbind (say _) _) =>
        apply atomic_sbind_quiet;
          [apply quiet_say|apply atomic_total, total_say|intros ?]
    | |- atomic (sbind (call _) _) => apply atomic_total; total_step
    | |- atomic (sbind _ (λ _, sret _)) =>
        apply atomic_sbind_total; [|intros ?; apply total_sret]
    | |- atomic (sret _) => apply atomic_total, total_sret
    | |- atomic (say _) => apply atomic_total, total_say
    | |- atomic (call _) => apply atomic_total, total_call
    | |- atomic (if ?b then _ else _) => destruct b
    | |- atomic (match ?x with _ => _ end) => destruct x
    | |- atomic (let _ := _ in _) => cbv zeta
    end.

Section turn_steps.
Import PyStr.
Variable float_of_str : string → option float.
Variable int_of_str : string → option Z.

Lemma turn_atomic : atomic (turn float_of_str int_of_str).
Proof. unfold turn. atomic_step. Qed.




End turn_steps.

(** ** A parser for plain integer literals

    An instance of [int_of_str] for the examples: blanks around the text are
    ignored, then an optional sign and one or more digits are read.  On these
    texts it gives the value of [int]; it rejects every other text. *)

Definition int_of_decimal (text : string) : option Z :=
  let digits s :=
    if DateText.all_digits s && PyStr.truthy s
    then Some (PyStr.digits_value 0 s) else None in
  match PyStr.strip text with
  | String "-" s => Z.opp <$> digits s
  | String "+" s => digits s
  | s => digits s
  end.

Example int_of_decimal_2 : int_of_decimal " 2 " = Some 2.
Proof. reflexivity. Qed.
Example int_of_decimal_neg : int_of_decimal "-12" = Some (-12).
Proof. reflexivity. Qed.
Example int_of_decimal_text : int_of_decimal "two" = None.
Proof. reflexivity. Qed.
Example int_of_decimal_empty : int_of_decimal EmptyString = None.
Proof. reflexivity. Qed.

(** ** What a run of [main] guarantees *)

Section main_claims.
Import PyStr.
Variable float_of_str : string → option float.
Variable int_of_str : string → option Z.


(** X10: a command that is cut short changes nothing.  When a turn of the
    loop runs out of input, in the command line or in any of the answers to
    its questions, the tracker is exactly as it was before the turn: nothing
    is added, updated, deleted or written. *)
Theorem cut_short_turn_changes_nothing (s : shell) :
  fst (turn float_of_str int_of_str s) = None →
  app (snd (turn float_of_str int_of_str s)) = app s
  ∧ stdin (snd (turn float_of_str int_of_str s)) = [].
Proof. intros H. by apply turn_atomic. Qed.

(** X11: only [add], [update] and [delete] change anything.  A turn whose
    command line, stripped and in lower case, is none of these three words
    leaves the list and the file as they were, whatever the command is and
    whatever follows on the input. *)
Theorem other_commands_change_nothing (s : shell) (line : string)
    (rest : list string) :
  stdin s = line :: rest →
  lower (strip line) ≠ "add"%string →
  lower (strip line) ≠ "update"%string →
  lower (strip line) ≠ "delete"%string →
  expenses (app (snd (turn float_of_str int_of_str s))) = expenses (app s)
  ∧ data_file (app (snd (turn float_of_str int_of_str s))) = data_file (app s).
Proof.
  intros Hin Hadd Hupd Hdel.
  assert (store_kept s (snd (turn float_of_str int_of_str s))) as (E & F & _);
    [|done].
  unfold turn. apply (sbind_input_follows store_kept _ _ _ line rest Hin).
  cbv zeta.
  apply String.eqb_neq in Hadd, Hupd, Hdel. rewrite Hadd, Hupd, Hdel.
  follows_step; apply follows_call; intros s0 scr; unfold store_kept; simpl.
  - apply view_expenses_store.
  - apply show_summary_store.
  - apply view_expenses_store.
  - apply view_expenses_store.
Qed.

End main_claims.

(** Decides the comparisons of a command word that is known. *)
Ltac eval_commands :=
  repeat match goal with
    | |- context [String.eqb (String ?c ?r) ?b] =>
        let v := eval vm_compute in (String.eqb (String c r) b) in
        change (String.eqb (String c r) b) with v
    end;
  cbv iota.

Section index_turns.
Import PyStr.
Variable float_of_str : string → option float.
Variable int_of_str : string → option Z.

Lemma sbind_input_run {B : Type} p (k : string → Sh B) s line rest :
  stdin s = line :: rest →
  sbind (input p) k s = k line (Shell (app s) rest (screen s ++ [Asked p])).
Proof. intros Hin. unfold sbind, input. by rewrite Hin. Qed.

Lemma sbind_say_run {B : Type} l (k : unit → Sh B) s :
  sbind (say l) k s = k tt (Shell (app s) (stdin s) (screen s ++ [l])).
Proof. reflexivity. Qed.

Lemma sbind_sret_run {A B : Type} (x : A) (k : A → Sh B) s :
  sbind (sret x) k s = k x s.
Proof. reflexivity. Qed.

Lemma sbind_assoc {A B C : Type} (m : Sh A) (k : A → Sh B) (k' : B → Sh C) s :
  sbind (sbind m k) k' s = sbind m (λ x, sbind (k x) k') s.
Proof. unfold sbind. by destruct (m s) as [[x|] s1]. Qed.

(** X12: an index that is not a number ends the command at once.  After
    [update] or [delete], an answer to the index question that [int] refuses
    gets the error line and nothing else: the tracker is untouched, the four
    questions of [update] are not asked, and the next line of the input is
    read as the next command. *)
Theorem index_not_a_number (s : shell) (line answer : string) (rest : list string) :
  stdin s = line :: answer :: rest →
  lower (strip line) = "update"%string ∨ lower (strip line) = "delete"%string →
  int_of_str answer = None →
  turn float_of_str int_of_str s
  = (Some true,
     Shell (app s) rest
       (screen s ++ [Asked AskCommand; Asked AskIndex; IndexNotNumber])).
Proof.
  intros Hin Hcmd Hint. unfold turn.
  rewrite (sbind_input_run _ _ _ _ _ Hin). cbv zeta.
  destruct Hcmd as [-> | ->]; eval_commands;
    rewrite sbind_assoc; erewrite sbind_input_run by reflexivity;
    rewrite Hint, sbind_say_run; unfold sret; simpl; by rewrite <- !app_assoc.
Qed.

Lemma update_expense_nothing_supplied index t :
  expenses (snd (update_expense float_of_str index None None None None t))
  = expenses t.
Proof.
  destruct (index_ok index (expenses t)) eqn:Hi.
  - destruct (update_expense_in_range float_of_str index None None None None t Hi)
      as (_ & -> & _).
    by apply list_alter_id.
  - by rewrite (update_expense_out_of_range float_of_str index None None None None
                  t Hi).
Qed.

(** X13: blank answers keep the record.  When all four questions of
    [update] are answered with an empty line, the list is the same after the
    command, for any index, in range or not; the loop goes on with the line
    after the four answers. *)
Theorem blank_update_keeps_list (s : shell) (line answer : string) (index : Z)
    (rest : list string) :
  stdin s
  = line :: answer :: EmptyString :: EmptyString :: EmptyString :: EmptyString
      :: rest →
  lower (strip line) = "update"%string →
  int_of_str answer = Some index →
  fst (turn float_of_str int_of_str s) = Some true
  ∧ expenses (app (snd (turn float_of_str int_of_str s))) = expenses (app s)
  ∧ stdin (snd (turn float_of_str int_of_str s)) = rest.
Proof.
  intros Hin Hcmd Hint.
  assert (∃ scr,
            turn float_of_str int_of_str s
            = (Some true,
               Shell (snd (update_expense float_of_str index None None None None
                             (app s))) rest scr)) as [scr ->].
  { unfold turn. rewrite (sbind_input_run _ _ _ _ _ Hin). cbv zeta.
    rewrite Hcmd. eval_commands.
    rewrite sbind_assoc. erewrite sbind_input_run by reflexivity.
    rewrite Hint, sbind_assoc, sbind_say_run.
    do 4 (rewrite sbind_assoc; erewrite sbind_input_run by reflexivity).
    rewrite sbind_assoc. unfold sbind, call, or_none, sret. simpl.
    destruct (update_expense float_of_str index None None None None (app s)).
    simpl. by eexists. }
  simpl. split; [done|]. split; [|done].
  apply update_expense_nothing_supplied.
Qed.

End index_turns.

(** ** Reading never writes *)

Section queries.
Variable float_of_str : string → option float.

(** X14: the methods that only look, [view_expenses], [show_summary] and the
    two validators, leave the list, the file and its flag exactly as they
    were, for every argument and every state; all they do is print. *)
Theorem queries_change_nothing (fc fd : option string) (text : string)
    (t : tracker) :
  same_store t (snd (view_expenses fc fd t))
  ∧ same_store t (snd (show_summary t))
  ∧ same_store t (snd (validate_amount float_of_str text t))
  ∧ same_store t (snd (validate_date text t))
  ∧ (∃ out, console (snd (view_expenses fc fd t)) = console t ++ out)
  ∧ (∃ out, console (snd (show_summary t)) = console t ++ out).
Proof.
  split; [apply view_expenses_store|].
  split; [apply show_summary_store|].
  split; [apply validate_amount_store|].
  split; [apply validate_date_store|].
  split.
  - by destruct (grows_view_expenses fc fd t) as [_ ?].
  - by destruct (grows_show_summary t) as [_ ?].
Qed.

End queries.

(** ** The further theorems at concrete inputs *)

(** A run of the program: one record is added, the first of the file is
    deleted, and the line after [quit] is not read. *)
Example main_example :
  ∃ s, main Decimal.float_of_decimal int_of_decimal (Json example_records) true
         ["add"; "12.50"; "2024-03-01"; " lunch "; EmptyString;
          " Delete "; "1"; "QUIT"; "summary"]%string
       = Some (Quit, s)
       ∧ expenses (app s)
         = [Expense 5%float "2024-01-20" EmptyString "Food";
            Expense 7%float "2024-02-01" EmptyString "Travel";
            Expense 12.5%float "2024-03-01" "lunch" "Uncategorized"]
       ∧ data_file (app s) = Json (expenses (app s))
       ∧ stdin s = ["summary"%string].
Proof. eexists. split; [vm_compute; reflexivity|]. repeat split. Qed.

Lemma stored_text_trimmed_witness :
  fst (add_expense Decimal.float_of_decimal "3" "2024-03-01" "  tea  " " "
         example_tracker) = true
  ∧ ∃ e, expenses (snd (add_expense Decimal.float_of_decimal "3" "2024-03-01"
                          "  tea  " " " example_tracker))
         = expenses example_tracker ++ [e]
         ∧ trimmed (note e) ∧ trimmed (category e).
Proof.
  assert (fst (add_expense Decimal.float_of_decimal "3" "2024-03-01" "  tea  " " "
                 example_tracker) = true) as H by reflexivity.
  split; [exact H|].
  destruct (proj1 (stored_text_trimmed Decimal.float_of_decimal "3" "2024-03-01"
                     "  tea  " " " 1 None None example_tracker) H)
    as (e & He & Hn & Hc & _).
  exists e. split; [exact He|]. split; [exact Hn|exact Hc].
Defined.

(** The program at the prompt with the three example records and some lines
    on the input. *)
Definition example_shell (lines : list string) : shell :=
  start (Json example_records) true lines.

Lemma cut_short_turn_changes_nothing_witness :
  fst (turn Decimal.float_of_decimal int_of_decimal
         (example_shell ["add"; "12.50"; "2024-03-01"]%string)) = None
  ∧ app (snd (turn Decimal.float_of_decimal int_of_decimal
                (example_shell ["add"; "12.50"; "2024-03-01"]%string)))
    = example_tracker.
Proof.
  assert (fst (turn Decimal.float_of_decimal int_of_decimal
                 (example_shell ["add"; "12.50"; "2024-03-01"]%string)) = None)
    as H by reflexivity.
  split; [exact H|].
  exact (proj1 (cut_short_turn_changes_nothing Decimal.float_of_decimal
                  int_of_decimal _ H)).
Defined.

Lemma other_commands_change_nothing_witness :
  (stdin (example_shell [" Filter "; "Category"; "food"]%string)
   = " Filter "%string :: ["Category"; "food"]%string
   ∧ PyStr.lower (PyStr.strip " Filter ") ≠ "add"%string
   ∧ PyStr.lower (PyStr.strip " Filter ") ≠ "update"%string
   ∧ PyStr.lower (PyStr.strip " Filter ") ≠ "delete"%string)
  ∧ expenses (app (snd (turn Decimal.float_of_decimal int_of_decimal
                          (example_shell [" Filter "; "Category"; "food"]%string))))
    = example_records.
Proof.
  assert (PyStr.lower (PyStr.strip " Filter ") ≠ "add"%string) as H1
    by (vm_compute; discriminate).
  assert (PyStr.lower (PyStr.strip " Filter ") ≠ "update"%string) as H2
    by (vm_compute; discriminate).
  assert (PyStr.lower (PyStr.strip " Filter ") ≠ "delete"%string) as H3
    by (vm_compute; discriminate).
  split; [by split_and!|].
  exact (proj1 (other_commands_change_nothing Decimal.float_of_decimal
                  int_of_decimal
                  (example_shell [" Filter "; "Category"; "food"]%string)
                  " Filter " ["Category"; "food"]%string eq_refl H1 H2 H3)).
Defined.

Lemma index_not_a_number_witness :
  (stdin (example_shell ["update"; "two"; "view"]%string)
   = "update"%string :: "two"%string :: ["view"%string]
   ∧ (PyStr.lower (PyStr.strip "update") = "update"%string
      ∨ PyStr.lower (PyStr.strip "update") = "delete"%string)
   ∧ int_of_decimal "two" = None)
  ∧ stdin (snd (turn Decimal.float_of_decimal int_of_decimal
                  (example_shell ["update"; "two"; "view"]%string)))
    = ["view"%string].
Proof.
  assert (PyStr.lower (PyStr.strip "update") = "update"%string
          ∨ PyStr.lower (PyStr.strip "update") = "delete"%string) as H
    by (left; reflexivity).
  split; [split_and!; [reflexivity|exact H|reflexivity]|].
  rewrite (index_not_a_number Decimal.float_of_decimal int_of_decimal
             (example_shell ["update"; "two"; "view"]%string)
             "update" "two" ["view"%string] eq_refl H eq_refl).
  reflexivity.
Defined.

Lemma blank_update_keeps_list_witness :
  (stdin (example_shell ["update"; "2"; EmptyString; EmptyString; EmptyString;
                         EmptyString; "quit"]%string)
   = "update"%string :: "2"%string :: EmptyString :: EmptyString :: EmptyString
       :: EmptyString :: ["quit"%string]
   ∧ PyStr.lower (PyStr.strip "update") = "update"%string
   ∧ int_of_decimal "2" = Some 2)
  ∧ expenses (app (snd (turn Decimal.float_of_decimal int_of_decimal
                          (example_shell ["update"; "2"; EmptyString; EmptyString;
                                          EmptyString; EmptyString; "quit"]%string))))
    = example_records.
Proof.
  split; [split_and!; reflexivity|].
  destruct (blank_update_keeps_list Decimal.float_of_decimal int_of_decimal
              (example_shell ["update"; "2"; EmptyString; EmptyString; EmptyString;
                              EmptyString; "quit"]%string)
              "update" "2" 2 ["quit"%string] eq_refl eq_refl eq_refl)
    as (_ & He & _).
  exact He.
Defined.

(** ** Numbers of the full listing, and the messages of a refused add *)

Section listing_numbers.
Import PyStr DateText.
Variable float_of_str : string → option float.

(** X15: the number in front of a record in the full listing is the index
    that [delete_expense] takes for it.  When [view_expenses] without filters
    prints a record with the number [k], the record stands at position [k]
    of the list, and [delete_expense k] succeeds, reports that very record
    and removes it. *)
Theorem listed_number_is_index (t : tracker) (k : nat) (e : expense)
    (out : list message) :
  console (snd (view_expenses None None t)) = console t ++ out →
  ExpenseLine k e ∈ out →
  (1 ≤ k ≤ length (expenses t))%nat
  ∧ expenses t !! (k - 1)%nat = Some e
  ∧ fst (delete_expense (Z.of_nat k) t) = true
  ∧ Deleted e ∈ console (snd (delete_expense (Z.of_nat k) t))
  ∧ expenses (snd (delete_expense (Z.of_nat k) t))
    = delete (k - 1)%nat (expenses t).
Proof.
  intros Hout Hin.
  rewrite view_expenses_run in Hout. unfold print_all in Hout.
  cbn [snd console] in Hout. apply app_inv_head in Hout. subst out.
  assert (filter (passes None None) (expenses t) = expenses t) as Hf.
  { rewrite <- (filter_True (expenses t)) at 2. apply list_filter_iff.
    intros x. unfold passes. tauto. }
  destruct (expenses t) as [|e0 es] eqn:Hes.
  { apply list_elem_of_singleton in Hin. discriminate Hin. }
  rewrite Hf in Hin. unfold listing in Hin.
  apply elem_of_cons in Hin as [Hin|Hin]; [discriminate Hin|].
  apply list_elem_of_lookup in Hin as [i Hi].
  rewrite list_lookup_imap in Hi.
  destruct ((e0 :: es) !! i) as [e'|] eqn:He'; [|discriminate Hi].
  injection Hi as <- <-.
  assert (i < length (e0 :: es))%nat as Hlt by by apply lookup_lt_Some in He'.
  assert (S i - 1 = i)%nat as -> by lia.
  split; [lia|]. split; [done|].
  assert (Z.to_nat (Z.of_nat (S i) - 1) = i) as Hn by lia.
  destruct (delete_expense_in_range (Z.of_nat (S i)) t e') as (Hr & Hd & Hc & _).
  { apply index_ok_true. rewrite Hes. lia. }
  { by rewrite Hn, Hes. }
  rewrite Hn, Hes in Hd.
  split; [done|]. split; [|done].
  rewrite Hc. apply elem_of_app. right. by left.
Qed.

(** X16: what [add_expense] prints.  Both validators run before either
    result is looked at, so a refused add names every field that is wrong:
    first the error of the amount, if any, then the error of the date, if
    any.  Only when neither is printed does the add go through, and then the
    line of [save_data] and the success line follow. *)
Theorem add_expense_reports_all (amount_text date_text note_text category_text : string)
    (t : tracker) :
  let result := add_expense float_of_str amount_text date_text note_text
                  category_text t in
  let amount_errors :=
    match float_of_str amount_text with
    | None => [AmountNotNumber]
    | Some a => if PrimFloat.leb a PrimFloat.zero then [AmountNotPositive] else []
    end in
  let date_errors :=
    match fst (validate_date date_text t) with
    | None => [DateFormatError]
    | Some _ => []
    end in
  console (snd result)
  = console t ++ amount_errors ++ date_errors
    ++ (if fst result
        then [if writable t then Saved (S (length (expenses t))) else SaveError;
              ExpenseAdded]
        else [])
  ∧ (fst result = true ↔ amount_errors = [] ∧ date_errors = []).
Proof.
  cbv zeta. unfold add_expense, validate_amount, validate_date.
  rewrite !bind_run.
  destruct (float_of_str amount_text) as [a|];
    [destruct (PrimFloat.leb a PrimFloat.zero)|];
    destruct (Strptime.strptime date_text);
    unfold bind, get_expenses, set_expenses, save_data, print, ret; simpl;
    try destruct (writable t); simpl;
    rewrite ?length_app, <- ?app_assoc, ?app_nil_r; simpl;
    rewrite ?Nat.add_1_r; (split; [done|split; [done|intros [? ?]; done]]).
Qed.

End listing_numbers.

Lemma listed_number_is_index_witness :
  (console (snd (view_expenses None None example_tracker))
   = console example_tracker ++ listing example_records
   ∧ ExpenseLine 2 (Expense 5%float "2024-01-20" EmptyString "Food")
     ∈ listing example_records)
  ∧ expenses (snd (delete_expense 2 example_tracker))
    = [Expense 10%float "2024-01-05" EmptyString "Food";
       Expense 7%float "2024-02-01" EmptyString "Travel"].
Proof.
  assert (console (snd (view_expenses None None example_tracker))
          = console example_tracker ++ listing example_records) as H1
    by reflexivity.
  assert (ExpenseLine 2 (Expense 5%float "2024-01-20" EmptyString "Food")
          ∈ listing example_records) as H2
    by (apply list_elem_of_lookup; exists 2%nat; reflexivity).
  split; [by split|].
  destruct (listed_number_is_index example_tracker 2 _ _ H1 H2)
    as (_ & _ & _ & _ & Hd).
  exact Hd.
Defined.

(** ** The file at the edges: not writable, not readable *)

Section file_edges.
Import PyStr DateText.
Variable float_of_str : string → option float.

Lemma init_data_file file w :
  data_file (init file w) = file ∧ writable (init file w) = w.
Proof. unfold init, load_data, bind. simpl. by destruct file. Qed.

(** X17: when the file cannot be written, no command changes it.  In every
    state of such a session the file is the one the session started with, so
    a new start gives the list of the first start again: what was added,
    updated or deleted in between lives in memory only. *)
Theorem unwritable_file_is_kept (file : file_content) (t : tracker) :
  reachable float_of_str file false t →
  data_file t = file
  ∧ writable t = false
  ∧ expenses (init (data_file t) (writable t)) = expenses (init file false).
Proof.
  intros Hr.
  assert (data_file t = file ∧ writable t = false) as [F W].
  { induction Hr as [|c t _ [F W]].
    - apply init_data_file.
    - destruct (grows_run float_of_str c t) as [W' _].
      split; [|by rewrite W'].
      destruct (run_effect float_of_str c t) as [(_ & F' & _)|Hp].
      + by rewrite F'.
      + unfold persisted in Hp. rewrite W in Hp. by rewrite Hp. }
  by rewrite F, W.
Qed.

(** X18: a file that is missing or could not be read stays as it is while
    no change is accepted, and the first accepted change replaces it by the
    list of the session.  In general the file of a session that can write
    is either the file of the start, with the loaded list still in memory,
    or the list in memory as saved; after a failed load a session that holds
    a record has therefore overwritten what was in the file. *)
Theorem failed_load_is_overwritten (file : file_content) (t : tracker) :
  reachable float_of_str file true t →
  ((data_file t = file ∧ expenses t = expenses (init file true))
   ∨ data_file t = Json (expenses t))
  ∧ ((∀ records, file ≠ Json records) → expenses t ≠ [] →
     data_file t = Json (expenses t)).
Proof.
  intros Hr.
  assert (((data_file t = file ∧ expenses t = expenses (init file true))
           ∨ data_file t = Json (expenses t))
          ∧ writable t = true) as [H W].
  { induction Hr as [|c t _ [IH W]].
    - split; [left; split; [apply init_data_file|done]|apply init_data_file].
    - destruct (grows_run float_of_str c t) as [W' _].
      split; [|by rewrite W'].
      destruct (run_effect float_of_str c t) as [(E & F & _)|Hp].
      + rewrite E, F. exact IH.
      + right. unfold persisted in Hp. by rewrite W in Hp. }
  split; [exact H|].
  intros Hfile Hne. destruct H as [[_ E]|H]; [|done].
  rewrite init_expenses in E. destruct file; [done|done|].
  by destruct (Hfile records).
Qed.

(** X19: what [update_expense] prints and returns.  With an index out of
    range it prints the index error and returns [False].  With an index in
    range it prints the error of a supplied, non-empty amount that is
    refused, then the error of a supplied, non-empty date that is refused,
    and then in every case the line of [save_data] and the success line, and
    returns [True]: a refused amount or date does not stop the update. *)
Theorem update_expense_reports (index : Z)
    (new_amount new_date new_note new_category : option string) (t : tracker) :
  let result :=
    update_expense float_of_str index new_amount new_date new_note new_category t in
  let amount_errors :=
    match new_amount with
    | Some a =>
        if truthy a
        then match float_of_str a with
             | None => [AmountNotNumber]
             | Some v =>
                 if PrimFloat.leb v PrimFloat.zero then [AmountNotPositive] else []
             end
        else []
    | None => []
    end in
  let date_errors :=
    match new_date with
    | Some d =>
        if truthy d
        then match fst (validate_date d t) with
             | None => [DateFormatError]
             | Some _ => []
             end
        else []
    | None => []
    end in
  console (snd result)
  = console t
    ++ (if index_ok index (expenses t)
        then amount_errors ++ date_errors
             ++ [if writable t then Saved (length (expenses t)) else SaveError;
                 ExpenseUpdated]
        else [InvalidIndex])
  ∧ fst result = index_ok index (expenses t).
Proof.
  cbv zeta. destruct (index_ok index (expenses t)) eqn:Hok.
  2:{ by rewrite update_expense_out_of_range. }
  split;
    [|by destruct (update_expense_in_range float_of_str index new_amount
                     new_date new_note new_category t Hok) as (Hr & _)].
  unfold update_expense, validate_amount, validate_date, assign.
  rewrite bind_run. unfold get_expenses at 1 2. cbn [fst snd]. rewrite Hok.
  change (negb true) with false. cbv iota.
  destruct new_amount as [a|];
    [destruct (truthy a);
     [destruct (float_of_str a) as [v|];
      [destruct (PrimFloat.leb v PrimFloat.zero)|]|]|];
    (destruct new_date as [d|];
     [destruct (truthy d); [destruct (Strptime.strptime d)|]|]);
    destruct new_note, new_category;
    unfold bind, get_expenses, set_expenses, save_data, print, ret; simpl;
    destruct (writable t); simpl;
    rewrite ?length_alter, <- ?app_assoc, ?app_nil_r; simpl; done.
Qed.

End file_edges.

(** ** The numbers of a filtered listing *)

Section filtered_numbers.
Import PyStr.

(** The item at position [k] of a filtered list sits at a position [i] of
    the list itself before which exactly [k] items pass. *)
Lemma filter_lookup_index {A : Type} (P : A → Prop) `{!∀ x, Decision (P x)}
    (l : list A) (k : nat) (e : A) :
  filter P l !! k = Some e →
  ∃ i, l !! i = Some e ∧ P e ∧ length (filter P (take i l)) = k.
Proof.
  revert k. induction l as [|x l IH]; intros k Hk; [done|].
  rewrite filter_cons in Hk. destruct (decide (P x)) as [Hx|Hx].
  - destruct k as [|k]; simpl in Hk.
    + injection Hk as ->. by exists 0%nat.
    + destruct (IH _ Hk) as (i & Hi & Hp & Hl). exists (S i).
      split; [done|]. split; [done|].
      simpl. rewrite filter_cons, decide_True by done. simpl. by rewrite Hl.
  - destruct (IH _ Hk) as (i & Hi & Hp & Hl). exists (S i).
    split; [done|]. split; [done|].
    simpl. by rewrite filter_cons, decide_False.
Qed.

Lemma filter_keeps_all {A : Type} (P : A → Prop) `{!∀ x, Decision (P x)}
    (l : list A) :
  length (filter P l) = length l ↔ Forall P l.
Proof.
  induction l as [|x l IH]; [by split; [constructor|]|].
  rewrite filter_cons. pose proof (length_filter P l) as Hle.
  destruct (decide (P x)) as [Hx|Hx]; simpl.
  - rewrite Forall_cons. split.
    + intros Hl. split; [done|]. apply IH. lia.
    + intros [_ Hl]. apply IH in Hl. lia.
  - split; [lia|]. intros Hl. by apply Forall_cons in Hl as [? _].
Qed.

(** X20: the number in front of a record in a filtered listing counts the
    records that pass the filters, not the positions of the list.  When
    [view_expenses] prints a record with the number [k], the record stands at
    some position of the list, it passes the filters, and [k - 1] records
    before it pass as well; so [k] is at most its index, and it is the index
    that [update_expense] and [delete_expense] take only when every record
    before it passes the filters. *)
Theorem filtered_number_counts_matches (fc fd : option string) (t : tracker)
    (k : nat) (e : expense) (out : list message) :
  console (snd (view_expenses fc fd t)) = console t ++ out →
  ExpenseLine k e ∈ out →
  ∃ i : nat,
    expenses t !! i = Some e
    ∧ passes fc fd e
    ∧ k = S (length (filter (passes fc fd) (take i (expenses t))))
    ∧ (k ≤ S i)%nat
    ∧ (k = S i ↔ Forall (passes fc fd) (take i (expenses t))).
Proof.
  intros Hout Hin.
  rewrite view_expenses_run in Hout. unfold print_all in Hout.
  cbn [snd console] in Hout. apply app_inv_head in Hout. subst out.
  destruct (expenses t) as [|e0 es] eqn:Hes.
  { apply list_elem_of_singleton in Hin. discriminate Hin. }
  destruct (filter (passes fc fd) (e0 :: es)) as [|e1 shown] eqn:Hf.
  { apply list_elem_of_singleton in Hin. discriminate Hin. }
  unfold listing in Hin.
  apply elem_of_cons in Hin as [Hin|Hin]; [discriminate Hin|].
  apply list_elem_of_lookup in Hin as [j Hj].
  rewrite list_lookup_imap in Hj.
  destruct ((e1 :: shown) !! j) as [e'|] eqn:He'; [|discriminate Hj].
  injection Hj as <- <-.
  rewrite <- Hf in He'.
  destruct (filter_lookup_index _ _ _ _ He') as (i & Hi & Hp & Hl).
  exists i. split; [done|]. split; [done|]. split; [by rewrite Hl|].
  pose proof (length_filter (passes fc fd) (take i (e0 :: es))) as Hle.
  assert (length (take i (e0 :: es)) = i) as Htake.
  { apply lookup_lt_Some in Hi. rewrite length_take. lia. }
  split; [lia|].
  rewrite <- (filter_keeps_all (passes fc fd)), Hl, Htake.
  split; intros Hk; lia.
Qed.

End filtered_numbers.

Lemma unwritable_file_is_kept_witness :
  reachable Decimal.float_of_decimal (Json example_records) false
    (run Decimal.float_of_decimal (Add "4" "2024-03-01" "bus" "Travel")
       (init (Json example_records) false))
  ∧ length (expenses
              (run Decimal.float_of_decimal (Add "4" "2024-03-01" "bus" "Travel")
                 (init (Json example_records) false))) = 4%nat
  ∧ data_file
      (run Decimal.float_of_decimal (Add "4" "2024-03-01" "bus" "Travel")
         (init (Json example_records) false))
    = Json example_records.
Proof.
  assert (reachable Decimal.float_of_decimal (Json example_records) false
            (run Decimal.float_of_decimal (Add "4" "2024-03-01" "bus" "Travel")
               (init (Json example_records) false))) as Hr
    by (apply reachable_step; apply reachable_init).
  split; [exact Hr|]. split; [reflexivity|].
  exact (proj1 (unwritable_file_is_kept Decimal.float_of_decimal _ _ Hr)).
Defined.

Lemma failed_load_is_overwritten_witness :
  reachable Decimal.float_of_decimal Unreadable true
    (run Decimal.float_of_decimal (Add "4" "2024-03-01" "bus" "Travel")
       (init Unreadable true))
  ∧ data_file
      (run Decimal.float_of_decimal (Add "4" "2024-03-01" "bus" "Travel")
         (init Unreadable true))
    = Json [Expense 4%float "2024-03-01" "bus" "Travel"].
Proof.
  assert (reachable Decimal.float_of_decimal Unreadable true
            (run Decimal.float_of_decimal (Add "4" "2024-03-01" "bus" "Travel")
               (init Unreadable true))) as Hr
    by (apply reachable_step; apply reachable_init).
  split; [exact Hr|].
  refine (proj2 (failed_load_is_overwritten Decimal.float_of_decimal _ _ Hr) _ _).
  - intros records. discriminate.
  - discriminate.
Defined.

Lemma filtered_number_counts_matches_witness :
  (console (snd (view_expenses (Some "travel") None example_tracker))
   = console example_tracker
     ++ listing [Expense 7%float "2024-02-01" EmptyString "Travel"]
   ∧ ExpenseLine 1 (Expense 7%float "2024-02-01" EmptyString "Travel")
     ∈ listing [Expense 7%float "2024-02-01" EmptyString "Travel"])
  ∧ ∃ i : nat,
      expenses example_tracker !! i
      = Some (Expense 7%float "2024-02-01" EmptyString "Travel")
      ∧ (1 ≤ S i)%nat.
Proof.
  assert (console (snd (view_expenses (Some "travel") None example_tracker))
          = console example_tracker
            ++ listing [Expense 7%float "2024-02-01" EmptyString "Travel"]) as H1
    by (vm_compute; reflexivity).
  assert (ExpenseLine 1 (Expense 7%float "2024-02-01" EmptyString "Travel")
          ∈ listing [Expense 7%float "2024-02-01" EmptyString "Travel"]) as H2
    by (apply list_elem_of_lookup; exists 1%nat; reflexivity).
  split; [by split|].
  destruct (filtered_number_counts_matches (Some "travel") None example_tracker
              1 _ _ H1 H2) as (i & Hi & _ & _ & Hle & _).
  exists i. by split.
Defined.
